(** * voxsim: configuration builders for a diffusion-MRI fiber simulator

    A shallow embedding of the Python sources
      - simulator/factory/simulation_factory/simulation_factory.py
      - utils/Translation.py
      - factory/geometry_factory/features/geometry_handler.py
    together with the properties their specification states about them. *)

From Stdlib Require Import Ascii.
From stdpp Require Import gmap strings list pretty.

Open Scope Z_scope.

(** ** Python values shared by all modules *)

(** The numbers that flow through the builders (b-values, coordinates, radii,
    relaxation times) are Python ints and floats, and numpy scalars once they
    are put in an array.  The builders never look inside them, so they are kept
    abstract: [py_int] is a Python int literal, [np_add], [np_sub] and [np_mul]
    are what numpy's [+], [-] and [*] do to one pair of entries of two arrays,
    [py_gt0] is the test [x > 0]. *)
Class PyNum (num : Type) := {
  py_int : Z → num;
  np_add : num → num → num;
  np_sub : num → num → num;
  np_mul : num → num → num;
  py_gt0 : num → bool
}.

(** Exceptions the modelled code can raise.  [DanglingReference] is not a
    Python exception: it is what the model answers when asked to follow a
    reference that is not in the object store, which no Python program holds. *)
Inductive exn :=
  | AssertionError
  | ValueError (msg : string)
  | FileNotFoundError (path : string)
  | FileExistsError (path : string)
  | NotADirectoryError (path : string)
  | IsADirectoryError (path : string)
  | IndexError
  | DanglingReference.

(** A call either returns a value or raises. *)
Inductive result (A : Type) :=
  | Ok (a : A)
  | Raise (e : exn).
Arguments Ok {A} a.
Arguments Raise {A} e.

(** Sequencing: an exception raised by the first call is not caught. *)
Global Instance result_ret : MRet result := fun A a => Ok a.
Global Instance result_bind : MBind result := fun A B k r =>
  match r with
  | Ok a => k a
  | Raise e => Raise e
  end.

(** [range(n)]: the integers [0, 1, ..., n-1]; empty when [n <= 0]. *)
Definition range (n : Z) : list Z := Z.of_nat <$> seq 0 (Z.to_nat n).

(** ** simulation_factory.py *)

Module SimulationFactory.

(** [class CompartmentType(Enum)], with its [.value]. *)
Inductive CompartmentType :=
  | INTRA_AXONAL
  | INTER_AXONAL
  | EXTRA_AXONAL_1
  | EXTRA_AXONAL_2.

Global Instance CompartmentType_eq_dec : EqDecision CompartmentType.
Proof. solve_decision. Defined.

Definition CompartmentType_value (c : CompartmentType) : string :=
  match c with
  | INTRA_AXONAL => "1"
  | INTER_AXONAL => "2"
  | EXTRA_AXONAL_1 => "3"
  | EXTRA_AXONAL_2 => "4"
  end.

(** [class AcquisitionType(Enum)]: each member's value is a class of
    [.parameters]. *)
Inductive AcquisitionType :=
  | STEJSKAL_TANNER
  | TENSOR_VALUED_BY_TENSOR
  | TENSOR_VALUED_BY_EIGS
  | TENSOR_VALUED_BY_PARAMS.

(** [class NoiseType(Enum)]. *)
Inductive NoiseType :=
  | COMPLEX_GAUSSIAN
  | RICIAN.

Section WithNumbers.
Context {num : Type} `{PyNum num}.

(** The values stored in the dictionaries the factory returns. *)
Inductive pyval :=
  | VStr (s : string)
  | VNum (x : num).

(** A Python [dict], in insertion order. *)
Definition pydict := list (string * pyval).

(** Modelled from the spec: the classes [StejskalTannerType],
    [TensorValuedByTensorType], [TensorValuedByEigsType] and
    [TensorValuedByParamsType] of [.parameters] are not part of the
    sources at hand.  The spec says each variant "owns its own constructor
    signature" and that the object is constructed "from args/kwargs"; the
    object is therefore the variant's tag with the arguments it was
    constructed from. *)
Record AcquisitionParameters := {
  ap_variant : AcquisitionType;
  ap_args : list pyval;
  ap_kwargs : list (string * pyval)
}.

(** [g_type.value] called on the unpacked [g_type_args] and
    [g_type_kwargs]. *)
Definition AcquisitionType_value (g_type : AcquisitionType)
    (args : list pyval) (kwargs : list (string * pyval)) : AcquisitionParameters :=
  {| ap_variant := g_type; ap_args := args; ap_kwargs := kwargs |}.

(** Modelled from the spec: the class [GradientProfile] of [.parameters]
    is not part of the sources at hand.  The spec describes it as "wrapping
    the padded lists and the variant object": b-values, b-vectors and one
    acquisition-type parameter object. *)
Record GradientProfile := {
  gp_bvals : list num;
  gp_bvecs : list (list num);
  gp_g_type : AcquisitionParameters
}.

(** [generate_gradient_profile(bvals, bvecs, n_b0=0,
    g_type=AcquisitionType.STEJSKAL_TANNER)], followed by the variadic
    [g_type_args] and [g_type_kwargs]. *)
Definition generate_gradient_profile (bvals : list num) (bvecs : list (list num))
    (n_b0 : Z) (g_type : AcquisitionType)
    (g_type_args : list pyval) (g_type_kwargs : list (string * pyval))
    : GradientProfile :=
  {| gp_bvals := ((fun i => py_int 0) <$> range n_b0) ++ bvals;
     gp_bvecs := ((fun i => [py_int 0; py_int 0; py_int 0]) <$> range n_b0) ++ bvecs;
     gp_g_type := AcquisitionType_value g_type g_type_args g_type_kwargs |}.

(** The defaults of the two optional parameters. *)
Definition default_n_b0 : Z := 0.
Definition default_g_type : AcquisitionType := STEJSKAL_TANNER.

(** [generate_fiber_stick_compartment(diffusivity, t1, t2, compartment_type)] *)
Definition generate_fiber_stick_compartment (diffusivity t1 t2 : num)
    (compartment_type : CompartmentType) : result pydict :=
  if bool_decide (compartment_type ∈ [INTRA_AXONAL; INTER_AXONAL]) then
    Ok [ ("type", VStr "fiber");
         ("model", VStr "stick");
         ("d", VNum diffusivity);
         ("t1", VNum t1);
         ("t2", VNum t2);
         ("ID", VStr (CompartmentType_value compartment_type)) ]
  else Raise AssertionError.

(** [generate_fiber_tensor_compartment(d1, d2, d3, t1, t2, compartment_type)] *)
Definition generate_fiber_tensor_compartment (d1 d2 d3 t1 t2 : num)
    (compartment_type : CompartmentType) : result pydict :=
  if bool_decide (compartment_type ∈ [INTRA_AXONAL; INTER_AXONAL]) then
    Ok [ ("type", VStr "fiber");
         ("model", VStr "tensor");
         ("d1", VNum d1);
         ("d2", VNum d2);
         ("d3", VNum d3);
         ("t1", VNum t1);
         ("t2", VNum t2);
         ("ID", VStr (CompartmentType_value compartment_type)) ]
  else Raise AssertionError.

(** [generate_extra_ball_compartment(diffusivity, t1, t2, compartment_type)] *)
Definition generate_extra_ball_compartment (diffusivity t1 t2 : num)
    (compartment_type : CompartmentType) : result pydict :=
  if bool_decide (compartment_type ∈ [EXTRA_AXONAL_1; EXTRA_AXONAL_2]) then
    Ok [ ("type", VStr "non-fiber");
         ("model", VStr "ball");
         ("d", VNum diffusivity);
         ("t1", VNum t1);
         ("t2", VNum t2);
         ("ID", VStr (CompartmentType_value compartment_type)) ]
  else Raise AssertionError.

End WithNumbers.

Arguments pyval : clear implicits.
Arguments pydict : clear implicits.
Arguments AcquisitionParameters : clear implicits.
Arguments GradientProfile : clear implicits.

End SimulationFactory.

(** ** The object store

    Python lists are objects: two names can refer to the same list, and
    [append] changes it for both.  The lists of points handled by the transform
    functions live in a store, and are named by their location.  A point itself
    (an inner list of coordinates) is only ever read by the code below, and is
    kept as a value. *)

Abbreviation loc := positive (only parsing).
Abbreviation point := list (only parsing).
Abbreviation heap num := (gmap loc (list (point num))) (only parsing).

Section Store.
Context {num : Type}.

(** Following a reference. *)
Definition deref (h : heap num) (l : loc) : result (list (point num)) :=
  match h !! l with
  | Some xs => Ok xs
  | None => Raise DanglingReference
  end.

(** [[]]: a new, empty list object. *)
Definition new_list (h : heap num) : loc * heap num :=
  let l := fresh (dom h) in (l, <[l := []]> h).

(** [l.append(x)] *)
Definition append (l : loc) (x : point num) (h : heap num) : result (heap num) :=
  xs ← deref h l; Ok (<[l := xs ++ [x]]> h).

(** [for x in xs: body], over the items [xs] of a list that the body leaves
    alone. *)
Fixpoint for_each (xs : list (point num))
    (body : point num → heap num → result (heap num)) (h : heap num)
    : result (heap num) :=
  match xs with
  | [] => Ok h
  | x :: xs' => h' ← body x h; for_each xs' body h'
  end.
End Store.

(** ** numpy arrays of numbers *)

Section Numpy.
Context {num : Type} `{PyNum num}.

(** [(array(a) op array(b)).tolist()] for two lists of numbers: numpy works
    entry by entry when the lengths agree, stretches an array of length one
    to the length of the other, and raises otherwise. *)
Definition array_binop (op : num → num → num) (a b : point num)
    : result (point num) :=
  if bool_decide (length a = length b) then Ok (zip_with op a b)
  else match a, b with
       | [x], _ => Ok ((fun y => op x y) <$> b)
       | _, [y] => Ok ((fun x => op x y) <$> a)
       | _, _ => Raise (ValueError "operands could not be broadcast together")
       end.

Definition array_add : point num → point num → result (point num) :=
  array_binop np_add.
Definition array_sub : point num → point num → result (point num) :=
  array_binop np_sub.
End Numpy.

(** ** Fibers (factory/geometry_factory/geometry_factory.py) *)

Module GeometryFactory.
Section WithNumbers.
Context {num : Type} `{PyNum num}.

(** Modelled from the spec: the class of fibers is not part of the sources
    at hand.  The spec's data model: an "ordered sequence of anchor points
    (each a 3-vector ...), radius (float > 0), symmetry (int >= 1),
    sampling (int >= 1)".  The anchors are a Python list, held by
    reference. *)
Record Fiber := {
  get_radius : num;
  get_symmetry : Z;
  get_sampling : Z;
  get_anchors : loc
}.

(** Modelled from the spec: [GeometryFactory.create_fiber] is not part of
    the sources at hand.  The spec's contract: "create_fiber(radius,
    symmetry, sampling, anchors) validates radius>0, symmetry>=1,
    sampling>=1, non-empty anchors, and returns an immutable Fiber", and
    "malformed anchor dimensionality (not length-3) is a construction
    error". *)
Definition create_fiber (radius : num) (symmetry sampling : Z) (anchors : loc)
    (h : heap num) : result Fiber :=
  pts ← deref h anchors;
  if negb (py_gt0 radius) then Raise (ValueError "radius")
  else if negb (bool_decide (1 ≤ symmetry)) then Raise (ValueError "symmetry")
  else if negb (bool_decide (1 ≤ sampling)) then Raise (ValueError "sampling")
  else if bool_decide (pts = []) then Raise (ValueError "anchors")
  else if negb (forallb (fun a => bool_decide (length a = 3%nat)) pts)
    then Raise (ValueError "anchor dimensionality")
  else Ok {| get_radius := radius; get_symmetry := symmetry;
             get_sampling := sampling; get_anchors := anchors |}.

(** A well-formed fiber is one that [create_fiber] accepts and returns. *)
Definition well_formed (fiber : Fiber) (h : heap num) : Prop :=
  create_fiber (get_radius fiber) (get_symmetry fiber) (get_sampling fiber)
    (get_anchors fiber) h = Ok fiber.

(** A 3-vector. *)
Definition vec3 (p : point num) : Prop := length p = 3%nat.
End WithNumbers.
Arguments Fiber : clear implicits.
End GeometryFactory.

(** ** utils/Translation.py *)

Module Translation.
Import GeometryFactory.
Section WithNumbers.
Context {num : Type} `{PyNum num}.

(** [translate_fiber(fiber, bbox, translation)] *)
Definition translate_fiber (fiber : Fiber num) (bbox : loc)
    (translation : point num) (h : heap num)
    : result ((loc * Fiber num) * heap num) :=
  let anchors := get_anchors fiber in
  let '(t_anchors, h) := new_list h in
  let '(t_bbox, h) := new_list h in
  anchor_items ← deref h anchors;
  h ← for_each anchor_items (fun anchor h =>
         t ← array_add anchor translation; append t_anchors t h) h;
  bbox_items ← deref h bbox;
  h ← (if bool_decide (0 < length bbox_items)%nat then
         for_each bbox_items (fun pt h =>
           t ← array_add pt translation; append t_bbox t h) h
       else Ok h);
  new_fiber ← create_fiber (get_radius fiber) (get_symmetry fiber)
                 (get_sampling fiber) t_anchors h;
  Ok ((t_bbox, new_fiber), h).
End WithNumbers.
End Translation.

(** ** utils/Rotation.py *)

Module Rotation.
Import GeometryFactory.

Inductive Plane := XY | YZ | XZ.

Section WithNumbers.
Context {num : Type} `{PyNum num}.

(** Modelled from the spec: utils/Rotation.py is not part of the sources
    at hand.  The spec: a rotation is "defined by a plane -- XY/YZ/XZ --
    and an angle"; [R] is "the 2D rotation matrix for the given plane
    embedded as identity on the third axis".  The matrix is kept by the
    cosine and the sine of the angle. *)
Record Rotation := {
  rot_plane : Plane;
  rot_cos : num;
  rot_sin : num
}.

(** The product of the rotation matrix with a 3-vector. *)
Definition apply_matrix (r : Rotation) (v : point num) : result (point num) :=
  let c := rot_cos r in
  let s := rot_sin r in
  match v with
  | [x; y; z] =>
      Ok match rot_plane r with
         | XY => [np_sub (np_mul c x) (np_mul s y); np_add (np_mul s x) (np_mul c y); z]
         | YZ => [x; np_sub (np_mul c y) (np_mul s z); np_add (np_mul s y) (np_mul c z)]
         | XZ => [np_sub (np_mul c x) (np_mul s z); y; np_add (np_mul s x) (np_mul c z)]
         end
  | _ => Raise (ValueError "shapes not aligned")
  end.

(** Modelled from the spec: "each anchor a becomes pivot + R.(a - pivot)". *)
Definition rotate_point (r : Rotation) (pivot a : point num) : result (point num) :=
  d ← array_sub a pivot;
  rd ← apply_matrix r d;
  array_add pivot rd.

(** Modelled from the spec: [rotate_fiber(fiber, bbox, rotation, pivot,
    extra)] "applies a rotation ... to every anchor point relative to
    pivot ...  If a bounding box is supplied, its corner points undergo the
    identical transform.  Returns (new_bbox, new_fiber); does not mutate
    the input."  The spec gives the fifth parameter no role. *)
Definition rotate_fiber (fiber : Fiber num) (bbox : loc) (rotation : Rotation)
    (pivot extra : point num) (h : heap num)
    : result ((loc * Fiber num) * heap num) :=
  let '(r_anchors, h) := new_list h in
  let '(r_bbox, h) := new_list h in
  anchor_items ← deref h (get_anchors fiber);
  h ← for_each anchor_items (fun anchor h =>
         t ← rotate_point rotation pivot anchor; append r_anchors t h) h;
  bbox_items ← deref h bbox;
  h ← for_each bbox_items (fun pt h =>
         t ← rotate_point rotation pivot pt; append r_bbox t h) h;
  new_fiber ← create_fiber (get_radius fiber) (get_symmetry fiber)
                 (get_sampling fiber) r_anchors h;
  Ok ((r_bbox, new_fiber), h).
End WithNumbers.
Arguments Rotation : clear implicits.
End Rotation.

(** ** The rigid transforms, taken together *)

Module Transform.
Import GeometryFactory.
Section WithNumbers.
Context {num : Type} `{PyNum num}.

Inductive transform :=
  | Translate (translation : point num)
  | Rotate (rotation : Rotation.Rotation num) (pivot extra : point num).

Definition apply_transform (t : transform) (fiber : Fiber num) (bbox : loc)
    (h : heap num) : result ((loc * Fiber num) * heap num) :=
  match t with
  | Translate translation => Translation.translate_fiber fiber bbox translation h
  | Rotate rotation pivot extra =>
      Rotation.rotate_fiber fiber bbox rotation pivot extra h
  end.

(** What a transform does to one point. *)
Definition transform_point (t : transform) (a : point num) : result (point num) :=
  match t with
  | Translate translation => array_add a translation
  | Rotate rotation pivot _ => Rotation.rotate_point rotation pivot a
  end.

(** The vectors a transform is made of are 3-vectors. *)
Definition well_formed_transform (t : transform) : Prop :=
  match t with
  | Translate translation => vec3 translation
  | Rotate _ pivot _ => vec3 pivot
  end.

(** The shape the two transforms share: every anchor and every point of
    the bounding box goes through [f], the images are collected in two new
    lists, and a fiber is built on the new anchors. *)
Definition transform_fiber (f : point num → result (point num))
    (fiber : Fiber num) (bbox : loc) (h : heap num)
    : result ((loc * Fiber num) * heap num) :=
  let '(new_anchors, h) := new_list h in
  let '(new_bbox, h) := new_list h in
  anchor_items ← deref h (get_anchors fiber);
  h ← for_each anchor_items (fun anchor h =>
         t ← f anchor; append new_anchors t h) h;
  bbox_items ← deref h bbox;
  h ← for_each bbox_items (fun pt h => t ← f pt; append new_bbox t h) h;
  new_fiber ← create_fiber (get_radius fiber) (get_symmetry fiber)
                 (get_sampling fiber) new_anchors h;
  Ok ((new_bbox, new_fiber), h).
End WithNumbers.
Arguments transform : clear implicits.
End Transform.

(** ** The operating system: paths, directories and files

    What [os.path.exists], [os.makedirs], [os.path.join], [open] and [write]
    do, on a POSIX system, as far as the geometry handler can observe it.  A
    path is compared after it is split at its slashes (so that "out/x" and
    "out//x" are one file); "." and ".." are taken as names like any other,
    and there are no links and no permissions. *)

Module Os.

Definition slash : ascii := "/"%char.

(** The pieces of a string between its slashes. *)
Fixpoint components (s : string) : list string :=
  match s with
  | "" => [""]
  | String c s' =>
      if bool_decide (c = slash) then "" :: components s'
      else match components s' with
           | w :: ws => String c w :: ws
           | [] => [String c ""]
           end
  end.

Definition is_abs (s : string) : bool :=
  match s with
  | String c _ => bool_decide (c = slash)
  | "" => false
  end.

Fixpoint ends_with_slash (s : string) : bool :=
  match s with
  | "" => false
  | String c "" => bool_decide (c = slash)
  | String _ s' => ends_with_slash s'
  end.

(** A path as the kernel resolves it: from the root or from the working
    directory, and then name by name. *)
Definition path : Type := bool * list string.

Definition norm (s : string) : path :=
  (is_abs s, filter (fun w => w ≠ "") (components s)).

Definition parent (p : path) : path := (p.1, removelast p.2).

(** The directories above a path, and the path itself, nearest last;
    the root and the working directory are left out. *)
Definition ancestors_and_self (p : path) : list path :=
  (fun n => (p.1, take n p.2)) <$> seq 1 (length p.2).

(** [os.path.join(a, b)] *)
Definition join (a b : string) : string :=
  if is_abs b then b
  else if bool_decide (a = "") || ends_with_slash a then a +:+ b
  else a +:+ "/" +:+ b.

(** What a program did to the file system, in order. *)
Inductive event :=
  | EvMakedirs (name : string)
  | EvOpen (name : string)
  | EvWrite (file : path) (text : string).

Record fs := {
  dirs : gset path;
  files : gmap path string;
  log : list event
}.

Definition record (e : event) (s : fs) : fs :=
  {| dirs := dirs s; files := files s; log := log s ++ [e] |}.

(** The root and the working directory always exist. *)
Definition is_dir (s : fs) (p : path) : bool :=
  bool_decide (p.2 = []) || bool_decide (p ∈ dirs s).

Definition is_file (s : fs) (p : path) : bool :=
  bool_decide (is_Some (files s !! p)).

(** A program run against the file system: it returns or raises, and leaves
    the file system in some state either way. *)
Definition io (A : Type) : Type := fs → result A * fs.

Global Instance io_ret : MRet io := fun A a s => (Ok a, s).
Global Instance io_bind : MBind io := fun A B k m s =>
  match m s with
  | (Ok a, s') => k a s'
  | (Raise e, s') => (Raise e, s')
  end.

(** A computation that does not touch the file system. *)
Definition pure {A} (r : result A) : io A := fun s => (r, s).

(** What [os.path.exists(name)] answers: the empty name names nothing. *)
Definition present (s : fs) (name : string) : bool :=
  negb (bool_decide (name = ""))
  && (is_dir s (norm name) || is_file s (norm name)).

(** [os.path.exists(name)] *)
Definition path_exists (name : string) : io bool := fun s =>
  (Ok (present s name), s).

(** [os.makedirs(name)]: creates the directory and those above it that are
    missing; the empty name is no directory at all. *)
Definition makedirs (name : string) : io unit := fun s =>
  let s := record (EvMakedirs name) s in
  let p := norm name in
  if bool_decide (name = "") then (Raise (FileNotFoundError name), s)
  else if is_dir s p || is_file s p then (Raise (FileExistsError name), s)
  else if existsb (is_file s) (ancestors_and_self p)
    then (Raise (NotADirectoryError name), s)
  else (Ok (),
        {| dirs := dirs s ∪ list_to_set (ancestors_and_self p);
           files := files s; log := log s |}).

(** [open(name, "w+")]: the file is created, or emptied when it is there;
    the handle is the file it stands for. *)
Definition open_w (name : string) : io path := fun s =>
  let s := record (EvOpen name) s in
  let p := norm name in
  if bool_decide (name = "") then (Raise (FileNotFoundError name), s)
  else if is_dir s p then (Raise (IsADirectoryError name), s)
  else if is_dir s (parent p) then
    (Ok p, {| dirs := dirs s; files := <[p := ""]> (files s); log := log s |})
  else if existsb (is_file s) (ancestors_and_self (parent p))
    then (Raise (NotADirectoryError name), s)
  else (Raise (FileNotFoundError name), s).

(** [f.write(text)], the text being on disk once the [with] block is left. *)
Definition write (f : path) (text : string) : io unit := fun s =>
  let s := record (EvWrite f text) s in
  (Ok (),
   {| dirs := dirs s;
      files := <[f := default "" (files s !! f) +:+ text]> (files s);
      log := log s |}).


(** [if not path.exists(name): makedirs(name)] *)
Definition ensure_directory (name : string) : io unit :=
  there ← path_exists name;
  if negb there then makedirs name else mret ().

(** Something is there under [name], or [makedirs] can make the directory:
    the name is not empty and no file is in the way. *)
Definition dir_available (s : fs) (name : string) : bool :=
  present s name
  || (negb (bool_decide (name = ""))
      && negb (existsb (is_file s) (ancestors_and_self (norm name)))).





(** The plain loop that opens each file of [ws] and writes its text. *)
Fixpoint write_all (ws : list (string * string)) : io unit :=
  match ws with
  | [] => mret ()
  | w :: ws' => f ← open_w w.1; write f w.2;; write_all ws'
  end.


End Os.

(** ** Strings *)

(** The line feed and the double quote. *)
Definition nl : string := String "010"%char "".
Definition dq : string := String "034"%char "".

(** [sep.join(l)] *)
Fixpoint str_join (sep : string) (l : list string) : string :=
  match l with
  | [] => ""
  | [x] => x
  | x :: l' => x +:+ sep +:+ str_join sep l'
  end.

(** [l[i]], Python's way: a negative index counts from the end. *)
Definition py_index {A} (l : list A) (i : Z) : result A :=
  let n := Z.of_nat (length l) in
  let j := if bool_decide (i < 0) then n + i else i in
  if bool_decide (0 ≤ j < n) then
    match l !! Z.to_nat j with
    | Some x => Ok x
    | None => Raise IndexError
    end
  else Raise IndexError.

(** [[f(x) for x in l]], when [f] may raise. *)
Fixpoint comprehension {A B} (f : A → result B) (l : list A) : result (list B) :=
  match l with
  | [] => Ok []
  | x :: l' => y ← f x; ys ← comprehension f l'; Ok (y :: ys)
  end.

(** ** The serializable objects (factory/geometry_factory/features/ORM) *)

Module ConfigBuilder.
Section WithNumbers.
Context {num : Type}.

(** Modelled from the spec: the ORM package is not part of the sources at
    hand.  The spec names "create_world(dimension, resolution)" and
    "create_bundle_object(name, file_refs, weights, center)" as "canonical
    constructors producing the structure entries", and says that
    "malformed dimension/resolution mismatches should fail at World
    construction". *)
Record World := {
  world_dimension : nat;
  world_resolution : list Z
}.

Definition create_world (dimension : nat) (resolution : list Z) : result World :=
  if bool_decide (dimension = length resolution) then
    Ok {| world_dimension := dimension; world_resolution := resolution |}
  else Raise (ValueError "dimension").

Record BundleObject := {
  bo_name : string;
  bo_file_refs : list string;
  bo_weights : list Z;
  bo_center : point num
}.

Definition create_bundle_object (name : string) (file_refs : list string)
    (weights : list Z) (center : point num) : BundleObject :=
  {| bo_name := name; bo_file_refs := file_refs;
     bo_weights := weights; bo_center := center |}.
End WithNumbers.
Arguments BundleObject : clear implicits.
End ConfigBuilder.

(** Modelled from the spec: the classes of bundles and spheres and the
    [serialize] methods are not part of the sources at hand, and the spec leaves
    the text they produce open ("opaque text format owned by the Bundle type").
    They are what the geometry handler is given: the two classes, the accessor
    [get_bundle_center], and the four [serialize] methods, those of the
    structure entries taking the [indent]. *)
Class GeometryObjects (num Bundle Sphere : Type) := {
  get_bundle_center : Bundle → point num;
  bundle_serialize : Bundle → string;
  sphere_serialize : Sphere → Z → string;
  world_serialize : ConfigBuilder.World → Z → string;
  bundle_object_serialize : ConfigBuilder.BundleObject num → Z → string
}.

(** ** geometry_handler.py *)

Module GeometryHandler.
Import ConfigBuilder.
Section WithObjects.
Context {num Bundle Sphere : Type} `{GeometryObjects num Bundle Sphere}.

(** [self._parameters_dict]: its four keys are fixed when the handler is
    built, so the dictionary is a record of four fields. *)
Record GeometryHandler := {
  resolution : list Z;
  spacing : point num;
  bundles : list Bundle;
  spheres : list Sphere
}.

(** [GeometryHandler(resolution, spacing)] *)
Definition init (resolution : list Z) (spacing : point num) : GeometryHandler :=
  {| resolution := resolution; spacing := spacing; bundles := []; spheres := [] |}.

(** [add_sphere(sphere)]; the handler returned is [self]. *)
Definition add_sphere (self : GeometryHandler) (sphere : Sphere) : GeometryHandler :=
  {| resolution := resolution self; spacing := spacing self;
     bundles := bundles self; spheres := spheres self ++ [sphere] |}.

(** [add_bundle(bundle)]; the handler returned is [self]. *)
Definition add_bundle (self : GeometryHandler) (bundle : Bundle) : GeometryHandler :=
  {| resolution := resolution self; spacing := spacing self;
     bundles := bundles self ++ [bundle]; spheres := spheres self |}.

Definition get_resolution (self : GeometryHandler) : list Z := resolution self.
Definition get_spacing (self : GeometryHandler) : point num := spacing self.

(** [_generate_bundle_base(i)] *)
Definition _generate_bundle_base (self : GeometryHandler) (i : Z)
    : result (BundleObject num) :=
  bundle ← py_index (bundles self) i;
  Ok (create_bundle_object "" ["f_" +:+ pretty i] [1] (get_bundle_center bundle)).

(** [_get_number_of_bundles()] *)
Definition _get_number_of_bundles (self : GeometryHandler) : Z :=
  Z.of_nat (length (bundles self)).

(** The entries of the [structures] list: the placeholders built by
    [create_bundle_object], then the spheres themselves. *)
Inductive Structure :=
  | SBundle (b : BundleObject num)
  | SSphere (s : Sphere).

(** [structure.serialize(indent)] *)
Definition structure_serialize (st : Structure) (indent : Z) : string :=
  match st with
  | SBundle b => bundle_object_serialize b indent
  | SSphere s => sphere_serialize s indent
  end.

(** The text handed to [base_file.write]. *)
Definition geometry_document (world : World) (simulation_path : string)
    (structures : list Structure) : string :=
  "{" +:+ nl +:+
  "    " +:+ dq +:+ "world" +:+ dq +:+ ": " +:+ world_serialize world 6 +:+ "," +:+ nl +:+
  "    " +:+ dq +:+ "path" +:+ dq +:+ ": " +:+ dq +:+ simulation_path +:+ dq +:+ "," +:+ nl +:+
  "    " +:+ dq +:+ "structures" +:+ dq +:+ ": [" +:+ nl +:+ "      " +:+
    str_join ("," +:+ nl) ((fun structure => structure_serialize structure 8) <$> structures)
    +:+ nl +:+ "    ]" +:+ nl +:+
  "}".

(** The names of the two kinds of files. *)
Definition geometry_file_name (output_naming : string) : string :=
  output_naming +:+ "_geometry_base.json".
Definition spline_file_name (output_naming : string) (bundle_idx : Z) : string :=
  output_naming +:+ "_f_" +:+ pretty bundle_idx +:+ ".vspl".

(** The loop over [range(len(bundles))] that writes the spline files. *)
Fixpoint write_splines (self : GeometryHandler) (output_naming simulation_path : string)
    (idxs : list Z) : Os.io unit :=
  match idxs with
  | [] => mret ()
  | bundle_idx :: rest =>
      f ← Os.open_w (Os.join simulation_path (spline_file_name output_naming bundle_idx));
      bundle ← Os.pure (py_index (bundles self) bundle_idx);
      Os.write f (bundle_serialize bundle);;
      write_splines self output_naming simulation_path rest
  end.

(** [generate_json_configuration_files(output_naming, simulation_path="")] *)
Definition generate_json_configuration_files (self : GeometryHandler)
    (output_naming simulation_path : string) : Os.io unit :=
  there ← Os.path_exists simulation_path;
  (if negb there then Os.makedirs simulation_path else mret ());;
  base_file ← Os.open_w (Os.join simulation_path (geometry_file_name output_naming));
  world ← Os.pure (create_world (length (get_resolution self)) (get_resolution self));
  bundle_entries ← Os.pure (comprehension (_generate_bundle_base self)
                              (range (_get_number_of_bundles self)));
  let structures := (SBundle <$> bundle_entries) ++ (SSphere <$> spheres self) in
  Os.write base_file (geometry_document world simulation_path structures);;
  write_splines self output_naming simulation_path
    (range (Z.of_nat (length (bundles self)))).

Definition default_simulation_path : string := "".

(** *** What the spec says the handler writes *)

(** "Bundle placeholder entry fields: empty name string, file-reference
    list ["f_{index}"], weight list [1], bundle center." *)
Definition spec_placeholder (index : nat) (bundle : Bundle) : Structure :=
  SBundle {| bo_name := "";
             bo_file_refs := ["f_" +:+ pretty (Z.of_nat index)];
             bo_weights := [1];
             bo_center := get_bundle_center bundle |}.

(** "one entry per bundle ... followed by one inline entry per sphere",
    the "bundle indices ... assigned by insertion order". *)
Definition spec_structures (self : GeometryHandler) : list Structure :=
  imap spec_placeholder (bundles self) ++ (SSphere <$> spheres self).

(** The world entry the code builds: the dimension and the resolution. *)
Definition spec_world (self : GeometryHandler) : World :=
  {| world_dimension := length (resolution self);
     world_resolution := resolution self |}.

(** "one spline file per bundle, named {output_naming}_f_{index}.vspl,
    containing that bundle's serialized fiber geometry": the names, in
    the output directory, with the contents. *)
Definition spec_spline_files (self : GeometryHandler)
    (output_naming simulation_path : string) : list (string * string) :=
  imap (fun index bundle =>
          (Os.join simulation_path
             (output_naming +:+ "_f_" +:+ pretty (Z.of_nat index) +:+ ".vspl"),
           bundle_serialize bundle))
       (bundles self).

(** The geometry document, in the output directory, with its content. *)
Definition spec_geometry_file (self : GeometryHandler)
    (output_naming simulation_path : string) : string * string :=
  (Os.join simulation_path (output_naming +:+ "_geometry_base.json"),
   geometry_document (spec_world self) simulation_path (spec_structures self)).

Definition spec_files (self : GeometryHandler)
    (output_naming simulation_path : string) : list (string * string) :=
  spec_geometry_file self output_naming simulation_path
  :: spec_spline_files self output_naming simulation_path.



End WithObjects.
Arguments GeometryHandler : clear implicits.
Arguments Structure : clear implicits.
End GeometryHandler.

(** ** simulation_factory.py: the artifact models and the handler *)

(** [d[key]] on a dictionary kept in insertion order; [None] stands for the
    [KeyError]. *)
Fixpoint dict_get {V} (key : string) (d : list (string * V)) : option V :=
  match d with
  | [] => None
  | (k, v) :: d' => if bool_decide (k = key) then Some v else dict_get key d'
  end.

Module Artifacts.
Import SimulationFactory.
Section WithNumbers.
Context {num : Type} `{PyNum num}.

(** The values stored in the dictionaries of the artifact models: strings,
    booleans, numbers, members of [NoiseType], and lists of volume indexes. *)
Inductive value :=
  | Str (s : string)
  | Bool (b : bool)
  | Num (x : num)
  | Noise (n : NoiseType)
  | Indexes (l : list Z).

Definition artifact := list (string * value).

(** [generate_noise_model(noise_type, variance)] *)
Definition generate_noise_model (noise_type : NoiseType) (variance : num) : artifact :=
  [ ("descr", Str "addnoise");
    ("noisetype", Noise noise_type);
    ("noisevariance", Num variance);
    ("value", Bool true) ].

(** [generate_motion_model(randomize=False, direction_indexes="random",
    rotation=(0, 0, 0), translation=(0, 0, 0))]: the entries of the
    dictionary are evaluated in the order in which they are written. *)
Definition generate_motion_model (randomize : bool) (direction_indexes : value)
    (rotation translation : list num) : result artifact :=
  rotation0 ← py_index rotation 0;
  rotation1 ← py_index rotation 1;
  rotation2 ← py_index rotation 2;
  translation0 ← py_index translation 0;
  translation1 ← py_index translation 1;
  translation2 ← py_index translation 2;
  Ok [ ("descr", Str "doAddMotion");
       ("randomMotion", Bool randomize);
       ("motionvolumes", direction_indexes);
       ("rotation0", Num rotation0);
       ("rotation1", Num rotation1);
       ("rotation2", Num rotation2);
       ("translation0", Num translation0);
       ("translation1", Num translation1);
       ("translation2", Num translation2);
       ("value", Bool true) ].

(** The defaults of its four parameters. *)
Definition default_randomize : bool := false.
Definition default_direction_indexes : value := Str "random".
Definition default_rotation : list num := [py_int 0; py_int 0; py_int 0].
Definition default_translation : list num := [py_int 0; py_int 0; py_int 0].

(** [generate_distortion_model()] *)
Definition generate_distortion_model : artifact :=
  [ ("descr", Str "doAddDistortions"); ("value", Bool true) ].

(** [generate_eddy_current_model(gradient_strength, gradient_tau=70)] *)
Definition generate_eddy_current_model (gradient_strength gradient_tau : num) : artifact :=
  [ ("descr", Str "addeddycurrents");
    ("eddyStrength", Num gradient_strength);
    ("eddyTau", Num gradient_tau);
    ("value", Bool true) ].

Definition default_gradient_tau : num := py_int 70.

(** [generate_ghosting_model(k_space_offset)] *)
Definition generate_ghosting_model (k_space_offset : num) : artifact :=
  [ ("descr", Str "addghosts");
    ("kspaceLineOffset", Num k_space_offset);
    ("value", Bool true) ].

(** [generate_signal_spikes_model(number_of_spikes, scale)] *)
Definition generate_signal_spikes_model (number_of_spikes scale : num) : artifact :=
  [ ("descr", Str "addspikes");
    ("spikesnum", Num number_of_spikes);
    ("spikesscale", Num scale);
    ("value", Bool true) ].

(** [generate_aliasing_model(fov_shrink_percent)] *)
Definition generate_aliasing_model (fov_shrink_percent : num) : artifact :=
  [ ("descr", Str "addaliasing");
    ("aliasingfactor", Num fov_shrink_percent);
    ("value", Bool true) ].

(** [generate_gibbs_ringing_model()] *)
Definition generate_gibbs_ringing_model : artifact :=
  [ ("descr", Str "addringing"); ("value", Bool true) ].

(** The eight functions, and the dictionaries each of them can return. *)
Inductive generator :=
  | NoiseModel
  | MotionModel
  | DistortionModel
  | EddyCurrentModel
  | GhostingModel
  | SignalSpikesModel
  | AliasingModel
  | GibbsRingingModel.

Inductive returned_by : generator → artifact → Prop :=
  | by_noise noise_type variance :
      returned_by NoiseModel (generate_noise_model noise_type variance)
  | by_motion randomize direction_indexes rotation translation a :
      generate_motion_model randomize direction_indexes rotation translation = Ok a →
      returned_by MotionModel a
  | by_distortion :
      returned_by DistortionModel generate_distortion_model
  | by_eddy_current gradient_strength gradient_tau :
      returned_by EddyCurrentModel
        (generate_eddy_current_model gradient_strength gradient_tau)
  | by_ghosting k_space_offset :
      returned_by GhostingModel (generate_ghosting_model k_space_offset)
  | by_signal_spikes number_of_spikes scale :
      returned_by SignalSpikesModel
        (generate_signal_spikes_model number_of_spikes scale)
  | by_aliasing fov_shrink_percent :
      returned_by AliasingModel (generate_aliasing_model fov_shrink_percent)
  | by_gibbs_ringing :
      returned_by GibbsRingingModel generate_gibbs_ringing_model.

(** The dictionaries the three compartment functions can return for a
    compartment type. *)
Definition compartment_of (c : CompartmentType) (r : pydict num) : Prop :=
  (∃ d t1 t2, generate_fiber_stick_compartment d t1 t2 c = Ok r)
  ∨ (∃ d1 d2 d3 t1 t2, generate_fiber_tensor_compartment d1 d2 d3 t1 t2 c = Ok r)
  ∨ (∃ d t1 t2, generate_extra_ball_compartment d t1 t2 c = Ok r).

End WithNumbers.
Arguments value : clear implicits.
Arguments artifact : clear implicits.
End Artifacts.

(** ** geometry_handler.py and simulation_factory.py: a handler in use *)

Module Calls.
Import GeometryHandler.
Section WithObjects.
Context {num Bundle Sphere : Type} `{GeometryObjects num Bundle Sphere}.

(** The two calls that fill a handler; each returns the handler, so that the
    calls are chained. *)
Inductive call :=
  | AddBundle (bundle : Bundle)
  | AddSphere (sphere : Sphere).

Definition do_call (self : GeometryHandler num Bundle Sphere) (c : call)
    : GeometryHandler num Bundle Sphere :=
  match c with
  | AddBundle bundle => add_bundle self bundle
  | AddSphere sphere => add_sphere self sphere
  end.

Definition do_calls (self : GeometryHandler num Bundle Sphere) (cs : list call)
    : GeometryHandler num Bundle Sphere :=
  foldl do_call self cs.

(** The bundles, and the spheres, that a list of calls adds, in order. *)
Definition bundles_of (cs : list call) : list Bundle :=
  omap (fun c => match c with AddBundle bundle => Some bundle | _ => None end) cs.
Definition spheres_of (cs : list call) : list Sphere :=
  omap (fun c => match c with AddSphere sphere => Some sphere | _ => None end) cs.

(** [SimulationFactory.get_simulation_handler(geometry_handler,
    compartments=None)].  The class [SimulationHandler] is not part of the
    sources at hand: its constructor is what the function is given. *)
Definition get_simulation_handler {SimulationHandler compartment : Type}
    (new_SimulationHandler :
       list Z → point num → option (list compartment) → SimulationHandler)
    (geometry_handler : GeometryHandler num Bundle Sphere)
    (compartments : option (list compartment)) : SimulationHandler :=
  new_SimulationHandler
    (get_resolution geometry_handler)
    (get_spacing geometry_handler)
    compartments.

End WithObjects.
Arguments call : clear implicits.
End Calls.

(** ** Data to run the definitions on *)

Module Example.
Import GeometryFactory ConfigBuilder GeometryHandler.

(** Python ints as the numbers. *)
Definition PyNum_Z : PyNum Z :=
  {| py_int := fun z => z; np_add := Z.add; np_sub := Z.sub; np_mul := Z.mul;
     py_gt0 := fun z => bool_decide (0 < z) |}.

(** A bundle is its center and its payload, a sphere its radius and its
    center; each text names what it stands for. *)
Definition objects : GeometryObjects Z (point Z * string) (Z * point Z) :=
  {| get_bundle_center := fst;
     bundle_serialize := snd;
     sphere_serialize := fun sphere indent =>
       "sphere " +:+ pretty sphere.1 +:+ " " +:+ str_join " " (pretty <$> sphere.2);
     world_serialize := fun world indent =>
       "world " +:+ pretty (Z.of_nat (world_dimension world))
       +:+ " " +:+ str_join " " (pretty <$> world_resolution world);
     bundle_object_serialize := fun b indent =>
       "bundle " +:+ str_join " " (bo_file_refs b)
       +:+ " " +:+ str_join " " (pretty <$> bo_center b) |}.



(** A file system with nothing in it, and one with a file in the way. *)
Definition empty_fs : Os.fs := {| Os.dirs := ∅; Os.files := ∅; Os.log := [] |}.

(** A fiber of two anchors and a bounding box of one point, in a store. *)
Definition store : heap Z :=
  {[ 1%positive := [[1; 2; 3]; [4; 5; 6]]; 2%positive := [[0; 0; 0]] ]}.
Definition fiber : Fiber Z :=
  {| get_radius := 4; get_symmetry := 1; get_sampling := 30;
     get_anchors := 1%positive |}.
End Example.

(** ** Further data: file systems that make the generation fail *)

Module Cases.


End Cases.

(** * Properties *)

(** ** Python's [range] and comprehensions *)

Lemma length_range (n : Z) : length (range n) = Z.to_nat n.
Proof. unfold range. by rewrite length_fmap, length_seq. Qed.

Lemma range_of_nat (n : nat) : range (Z.of_nat n) = Z.of_nat <$> seq 0 n.
Proof. unfold range. by rewrite Nat2Z.id. Qed.

Lemma range_nonpos (n : Z) : n ≤ 0 → range n = [].
Proof. intros Hn. unfold range. by replace (Z.to_nat n) with 0%nat by lia. Qed.

Lemma lookup_range (n : Z) (i : nat) :
  (i < Z.to_nat n)%nat → range n !! i = Some (Z.of_nat i).
Proof.
  intros Hi. unfold range. rewrite list_lookup_fmap, lookup_seq_lt by done.
  done.
Qed.

(** A comprehension whose body ignores the loop variable builds a list of
    copies. *)
Lemma constant_comprehension {A} (x : A) (n : Z) :
  (fun _ => x) <$> range n = replicate (Z.to_nat n) x.
Proof.
  unfold range. rewrite <- list_fmap_compose.
  generalize 0%nat. induction (Z.to_nat n) as [|k IH]; intros start; simpl.
  - done.
  - by rewrite IH.
Qed.

(** ** simulation_factory.py *)

Section SimulationFactoryProperties.
Import SimulationFactory.
Context {num : Type} `{PyNum num}.

Lemma gradient_profile_bvals (bvals : list num) bvecs n_b0 g_type args kwargs :
  gp_bvals (generate_gradient_profile bvals bvecs n_b0 g_type args kwargs)
  = replicate (Z.to_nat n_b0) (py_int 0) ++ bvals.
Proof. simpl. by rewrite constant_comprehension. Qed.

Lemma gradient_profile_bvecs (bvals : list num) bvecs n_b0 g_type args kwargs :
  gp_bvecs (generate_gradient_profile bvals bvecs n_b0 g_type args kwargs)
  = replicate (Z.to_nat n_b0) [py_int 0; py_int 0; py_int 0] ++ bvecs.
Proof. simpl. by rewrite constant_comprehension. Qed.

(** A negative [n_b0] pads nothing. *)
Lemma gradient_profile_negative_n_b0 (bvals : list num) bvecs n_b0 g_type args kwargs :
  n_b0 < 0 →
  gp_bvals (generate_gradient_profile bvals bvecs n_b0 g_type args kwargs) = bvals
  ∧ gp_bvecs (generate_gradient_profile bvals bvecs n_b0 g_type args kwargs) = bvecs.
Proof.
  intros Hn. rewrite gradient_profile_bvals, gradient_profile_bvecs.
  by replace (Z.to_nat n_b0) with 0%nat by lia.
Qed.

(** C1. For all lists [bvals] and [bvecs] and every natural number [n_b0],
    the profile returned by [generate_gradient_profile] has as b-values
    [n_b0] zeros followed by [bvals], as b-vectors [n_b0] copies of
    [[0, 0, 0]] followed by [bvecs], and holds the parameter object of
    [g_type]; in particular, b-values [[1000, 2000]], b-vectors
    [[[1,0,0], [0,1,0]]] and [n_b0 = 2] give [[0, 0, 1000, 2000]] and
    [[[0,0,0], [0,0,0], [1,0,0], [0,1,0]]]. *)
Theorem generate_gradient_profile_pads :
  (∀ (bvals : list num) (bvecs : list (list num)) (n_b0 : nat) g_type args kwargs,
     let profile :=
       generate_gradient_profile bvals bvecs (Z.of_nat n_b0) g_type args kwargs in
     gp_bvals profile = replicate n_b0 (py_int 0) ++ bvals
     ∧ gp_bvecs profile = replicate n_b0 [py_int 0; py_int 0; py_int 0] ++ bvecs
     ∧ gp_g_type profile = AcquisitionType_value g_type args kwargs)
  ∧ (let profile :=
       generate_gradient_profile
         [py_int 1000; py_int 2000]
         [[py_int 1; py_int 0; py_int 0]; [py_int 0; py_int 1; py_int 0]]
         2 default_g_type [] [] in
     gp_bvals profile = [py_int 0; py_int 0; py_int 1000; py_int 2000]
     ∧ gp_bvecs profile =
         [[py_int 0; py_int 0; py_int 0]; [py_int 0; py_int 0; py_int 0];
          [py_int 1; py_int 0; py_int 0]; [py_int 0; py_int 1; py_int 0]]).
Proof.
  split.
  - intros bvals bvecs n_b0 g_type args kwargs profile. subst profile.
    rewrite gradient_profile_bvals, gradient_profile_bvecs, Nat2Z.id.
    done.
  - split; reflexivity.
Qed.

(** C8. When [bvals] and [bvecs] have the same length, the b-values and the
    b-vectors of the profile returned by [generate_gradient_profile] have the
    same length, whatever [n_b0] is. *)
Theorem generate_gradient_profile_equal_lengths
    (bvals : list num) (bvecs : list (list num)) (n_b0 : Z) g_type args kwargs :
  length bvals = length bvecs →
  let profile := generate_gradient_profile bvals bvecs n_b0 g_type args kwargs in
  length (gp_bvals profile) = length (gp_bvecs profile).
Proof.
  intros Hlen profile. subst profile.
  rewrite gradient_profile_bvals, gradient_profile_bvecs.
  rewrite !length_app, !length_replicate. by rewrite Hlen.
Qed.

(** The padding adds the same [n_b0] entries to both lists, so lists of
    different lengths stay of different lengths. *)
Lemma generate_gradient_profile_lengths
    (bvals : list num) (bvecs : list (list num)) (n_b0 : Z) g_type args kwargs :
  let profile := generate_gradient_profile bvals bvecs n_b0 g_type args kwargs in
  length (gp_bvals profile) = (Z.to_nat n_b0 + length bvals)%nat
  ∧ length (gp_bvecs profile) = (Z.to_nat n_b0 + length bvecs)%nat.
Proof.
  intros profile. subst profile.
  rewrite gradient_profile_bvals, gradient_profile_bvecs.
  by rewrite !length_app, !length_replicate.
Qed.

(** C2. [generate_fiber_stick_compartment] and
    [generate_fiber_tensor_compartment] raise the assertion error exactly
    when the compartment type is neither [INTRA_AXONAL] nor [INTER_AXONAL],
    [generate_extra_ball_compartment] exactly when it is neither
    [EXTRA_AXONAL_1] nor [EXTRA_AXONAL_2]; on the permitted types, and only
    there, each returns its record. *)
Theorem compartment_type_checked (d d1 d2 d3 t1 t2 : num) (c : CompartmentType) :
  (generate_fiber_stick_compartment d t1 t2 c = Raise AssertionError
     ↔ c ∉ [INTRA_AXONAL; INTER_AXONAL])
  ∧ (generate_fiber_tensor_compartment d1 d2 d3 t1 t2 c = Raise AssertionError
     ↔ c ∉ [INTRA_AXONAL; INTER_AXONAL])
  ∧ (generate_extra_ball_compartment d t1 t2 c = Raise AssertionError
     ↔ c ∉ [EXTRA_AXONAL_1; EXTRA_AXONAL_2])
  ∧ (generate_fiber_stick_compartment d t1 t2 c =
       Ok [("type", VStr "fiber"); ("model", VStr "stick"); ("d", VNum d);
           ("t1", VNum t1); ("t2", VNum t2);
           ("ID", VStr (CompartmentType_value c))]
     ↔ c ∈ [INTRA_AXONAL; INTER_AXONAL])
  ∧ (generate_fiber_tensor_compartment d1 d2 d3 t1 t2 c =
       Ok [("type", VStr "fiber"); ("model", VStr "tensor"); ("d1", VNum d1);
           ("d2", VNum d2); ("d3", VNum d3); ("t1", VNum t1); ("t2", VNum t2);
           ("ID", VStr (CompartmentType_value c))]
     ↔ c ∈ [INTRA_AXONAL; INTER_AXONAL])
  ∧ (generate_extra_ball_compartment d t1 t2 c =
       Ok [("type", VStr "non-fiber"); ("model", VStr "ball"); ("d", VNum d);
           ("t1", VNum t1); ("t2", VNum t2);
           ("ID", VStr (CompartmentType_value c))]
     ↔ c ∈ [EXTRA_AXONAL_1; EXTRA_AXONAL_2]).
Proof.
  unfold generate_fiber_stick_compartment, generate_fiber_tensor_compartment,
    generate_extra_ball_compartment.
  repeat match goal with |- _ ∧ _ => split end;
    case_bool_decide; split; intros Hc; done.
Qed.

End SimulationFactoryProperties.

(** ** Results and comprehensions *)

Lemma bind_Ok {A B} (r : result A) (k : A → result B) (b : B) :
  r ≫= k = Ok b ↔ ∃ a, r = Ok a ∧ k a = Ok b.
Proof.
  destruct r as [a|e]; simpl.
  - split; [eauto | by intros (a' & [= <-] & ?)].
  - split; [done | by intros (a' & ? & ?)].
Qed.

Lemma comprehension_Ok {A B} (f : A → result B) (l : list A) (l' : list B) :
  comprehension f l = Ok l' ↔ Forall2 (fun x y => f x = Ok y) l l'.
Proof.
  revert l'. induction l as [|x l IH]; intros l'; simpl.
  - split; [intros [= <-]; constructor | by inversion 1].
  - rewrite bind_Ok. split.
    + intros (y & Hy & Hrest). apply bind_Ok in Hrest as (ys & Hys & [= <-]).
      constructor; [done | by apply IH].
    + inversion 1 as [|? y ? ys Hy Hys]; subst. exists y. split; [done|].
      apply IH in Hys. by rewrite Hys.
Qed.

Lemma comprehension_length {A B} (f : A → result B) (l : list A) (l' : list B) :
  comprehension f l = Ok l' → length l' = length l.
Proof. intros Hl%comprehension_Ok. symmetry. by eapply Forall2_length. Qed.

(** A comprehension returns when its body returns on every item. *)
Lemma comprehension_returns {A B} (f : A → result B) (P : B → Prop) (l : list A) :
  Forall (fun x => ∃ y, f x = Ok y ∧ P y) l →
  ∃ l', comprehension f l = Ok l' ∧ Forall P l'.
Proof.
  induction 1 as [|x l (y & Hy & HP) _ (l' & Hl' & HPl')]; simpl.
  - by exists [].
  - exists (y :: l'). rewrite Hy, Hl'. by split; [|constructor].
Qed.

Lemma comprehension_total {A B} (f : A → result B) (g : A → B) (l : list A) :
  Forall (fun x => f x = Ok (g x)) l → comprehension f l = Ok (g <$> l).
Proof.
  intros Hl. apply comprehension_Ok. induction Hl; constructor; auto.
Qed.

(** ** The object store *)

Section StoreProperties.
Context {num : Type}.
Implicit Types (h : heap num) (l : loc) (xs acc : list (point num)).

Lemma deref_Ok h l xs : deref h l = Ok xs ↔ h !! l = Some xs.
Proof. unfold deref. destruct (h !! l); split; intros; by simplify_eq. Qed.

Lemma deref_lookup h l xs : h !! l = Some xs → deref h l = Ok xs.
Proof. apply deref_Ok. Qed.

Lemma new_list_fresh h : (new_list h).1 ∉ dom h.
Proof. apply is_fresh. Qed.

(** Two lists made one after the other are two lists. *)
Lemma new_list_twice h :
  let l1 := fresh (dom h) in
  let l2 := fresh (dom (<[l1 := []]> h)) in
  (l1 ∉ dom h) ∧ (l2 ∉ dom h) ∧ l1 ≠ l2.
Proof.
  intros l1 l2.
  assert (l1 ∉ dom h) as H1 by apply is_fresh.
  assert (l2 ∉ dom (<[l1 := []]> h)) as H2 by apply is_fresh.
  rewrite dom_insert_L in H2. set_solver.
Qed.

(** A loop that appends the image of every item to the list at [l] leaves
    there what was there, followed by the images in order; it raises when
    one of the items has no image. *)
Lemma for_each_append (f : point num → result (point num)) l xs acc h :
  h !! l = Some acc →
  for_each xs (fun x h => t ← f x; append l t h) h
  = ys ← comprehension f xs; Ok (<[l := acc ++ ys]> h).
Proof.
  revert acc h. induction xs as [|x xs IH]; intros acc h Hl; simpl.
  - by rewrite app_nil_r, insert_id.
  - destruct (f x) as [y|e]; simpl; [|done].
    unfold append. rewrite (deref_lookup _ _ _ Hl). simpl.
    rewrite (IH (acc ++ [y])) by apply lookup_insert_eq.
    destruct (comprehension f xs) as [ys|e]; simpl; [|done].
    by rewrite insert_insert_eq, <- app_assoc.
Qed.
End StoreProperties.

(** ** The rigid transforms *)

Section TransformProperties.
Import GeometryFactory Transform.
Context {num : Type} `{PyNum num}.
Implicit Types (h : heap num) (fiber : Fiber num) (t : transform num).

(** [translate_fiber] and [rotate_fiber] have the common shape. *)
Lemma translate_fiber_shape fiber bbox translation h :
  Translation.translate_fiber fiber bbox translation h
  = transform_fiber (fun a => array_add a translation) fiber bbox h.
Proof.
  unfold Translation.translate_fiber, transform_fiber.
  destruct (new_list h) as [t_anchors h1]. destruct (new_list h1) as [t_bbox h2].
  destruct (deref h2 (get_anchors fiber)) as [anchors|]; simpl; [|done].
  destruct (for_each anchors _ h2) as [h3|]; simpl; [|done].
  destruct (deref h3 bbox) as [[|pt pts]|]; simpl; done.
Qed.

Lemma apply_transform_shape t fiber bbox h :
  apply_transform t fiber bbox h = transform_fiber (transform_point t) fiber bbox h.
Proof. destruct t; simpl; [apply translate_fiber_shape | done]. Qed.

(** What [transform_fiber] computes, on a fiber and a bounding box that are
    in the store: the two new lists are at two new locations, and nothing
    else in the store changes. *)
Lemma transform_fiber_run (f : point num → result (point num)) fiber bbox h
    (anchors pts : list (point num)) :
  h !! get_anchors fiber = Some anchors →
  h !! bbox = Some pts →
  let new_anchors := fresh (dom h) in
  let new_bbox := fresh (dom (<[new_anchors := []]> h)) in
  transform_fiber f fiber bbox h
  = (anchors' ← comprehension f anchors;
     pts' ← comprehension f pts;
     let h' := <[new_bbox := pts']> (<[new_anchors := anchors']> h) in
     new_fiber ← create_fiber (get_radius fiber) (get_symmetry fiber)
                    (get_sampling fiber) new_anchors h';
     Ok ((new_bbox, new_fiber), h')).
Proof.
  intros Hanchors Hbbox new_anchors new_bbox.
  destruct (new_list_twice h) as (Hfresh1 & Hfresh2 & Hne).
  fold new_anchors in Hfresh1, Hfresh2, Hne. fold new_bbox in Hfresh2, Hne.
  assert (new_anchors ≠ get_anchors fiber ∧ new_bbox ≠ get_anchors fiber
          ∧ new_anchors ≠ bbox ∧ new_bbox ≠ bbox) as (Ha1 & Ha2 & Hb1 & Hb2).
  { apply elem_of_dom_2 in Hanchors. apply elem_of_dom_2 in Hbbox.
    repeat split; intros Heq; rewrite <- Heq in *; done. }
  unfold transform_fiber, new_list. fold new_anchors. fold new_bbox.
  rewrite (deref_lookup _ _ anchors) by by rewrite !lookup_insert_ne. simpl.
  rewrite (for_each_append f new_anchors anchors []).
  2:{ rewrite lookup_insert_ne by done. apply lookup_insert_eq. }
  destruct (comprehension f anchors) as [anchors'|e]; simpl; [|done].
  rewrite (deref_lookup _ _ pts) by by rewrite !lookup_insert_ne. simpl.
  rewrite (for_each_append f new_bbox pts []).
  2:{ rewrite lookup_insert_ne by done. apply lookup_insert_eq. }
  destruct (comprehension f pts) as [pts'|e]; simpl; [|done].
  replace (<[new_bbox:=pts']> (<[new_anchors:=anchors']>
             (<[new_bbox:=[]]> (<[new_anchors:=[]]> h))))
    with (<[new_bbox:=pts']> (<[new_anchors:=anchors']> h)); [done|].
  rewrite (insert_insert_ne (<[new_anchors:=[]]> h) new_anchors new_bbox) by done.
  by rewrite !insert_insert_eq.
Qed.

Lemma create_fiber_Ok radius symmetry sampling (anchors : loc) h fiber :
  create_fiber radius symmetry sampling anchors h = Ok fiber
  ↔ (∃ pts, h !! anchors = Some pts ∧ pts ≠ [] ∧ Forall vec3 pts)
    ∧ py_gt0 radius = true ∧ 1 ≤ symmetry ∧ 1 ≤ sampling
    ∧ fiber = {| get_radius := radius; get_symmetry := symmetry;
                 get_sampling := sampling; get_anchors := anchors |}.
Proof.
  unfold create_fiber, deref, vec3.
  destruct (h !! anchors) as [pts|]; simpl.
  2:{ split; [done | by intros [(? & ? & _) _]]. }
  destruct (py_gt0 radius); simpl; [|naive_solver].
  repeat (case_bool_decide; simpl; [|naive_solver]).
  case_bool_decide; simpl; [naive_solver|].
  destruct (forallb _ pts) eqn:Hall; simpl.
  - apply Is_true_true, forallb_True in Hall.
    apply (Forall_impl _ (fun a => length a = 3%nat)) in Hall.
    2:{ intros a Ha. by apply bool_decide_unpack in Ha. }
    naive_solver.
  - split; [done|]. intros [(pts' & [= <-] & _ & Hvec) _].
    apply Is_true_false in Hall. destruct Hall.
    apply forallb_True. eapply Forall_impl; [done|].
    intros a Ha. by apply bool_decide_pack.
Qed.

(** The point functions return 3-vectors on 3-vectors. *)
Lemma array_binop_vec3 (op : num → num → num) (a b : point num) :
  vec3 a → vec3 b →
  array_binop op a b = Ok (zip_with op a b) ∧ vec3 (zip_with op a b).
Proof.
  unfold vec3, array_binop. intros Ha Hb. rewrite length_zip_with.
  rewrite bool_decide_true by congruence. split; [done | lia].
Qed.

Lemma transform_point_vec3 t (a : point num) :
  well_formed_transform t → vec3 a →
  ∃ a', transform_point t a = Ok a' ∧ vec3 a'.
Proof.
  destruct t as [translation|rotation pivot extra]; simpl; intros Ht Ha.
  - exists (zip_with np_add a translation). by apply array_binop_vec3.
  - unfold Rotation.rotate_point, array_sub, array_add.
    destruct (array_binop_vec3 np_sub a pivot Ha Ht) as [-> Hd]. simpl.
    destruct (zip_with np_sub a pivot) as [|x [|y [|z [|]]]]; try done. simpl.
    eexists. apply array_binop_vec3; [done|]. by destruct (Rotation.rot_plane _).
Qed.

(** On well-formed input a transform returns: a well-formed fiber and a
    bounding box of 3-vectors. *)
Lemma apply_transform_returns t fiber bbox h (pts : list (point num)) :
  well_formed fiber h → h !! bbox = Some pts → Forall vec3 pts →
  well_formed_transform t →
  ∃ new_bbox new_fiber h' pts',
    apply_transform t fiber bbox h = Ok ((new_bbox, new_fiber), h')
    ∧ well_formed new_fiber h'
    ∧ h' !! new_bbox = Some pts' ∧ Forall vec3 pts'.
Proof.
  intros Hwf Hbbox Hpts Ht.
  apply create_fiber_Ok in Hwf
    as ((anchors & Hanchors & Hne & Hvec) & Hr & Hsym & Hsam & Hfiber).
  rewrite apply_transform_shape, (transform_fiber_run _ _ _ _ anchors pts) by done.
  destruct (comprehension_returns (transform_point t) vec3 anchors)
    as (anchors' & Hanchors' & Hvec').
  { eapply Forall_impl; [done|]. intros a Ha. by apply transform_point_vec3. }
  destruct (comprehension_returns (transform_point t) vec3 pts)
    as (pts' & Hpts' & Hvecp).
  { eapply Forall_impl; [done|]. intros a Ha. by apply transform_point_vec3. }
  rewrite Hanchors', Hpts'. simpl.
  set (new_anchors := fresh (dom h)).
  set (new_bbox := fresh (dom (<[new_anchors:=[]]> h))).
  set (h' := <[new_bbox:=pts']> (<[new_anchors:=anchors']> h)).
  destruct (new_list_twice h) as (_ & _ & Hfresh).
  fold new_anchors in Hfresh. fold new_bbox in Hfresh.
  assert (create_fiber (get_radius fiber) (get_symmetry fiber)
            (get_sampling fiber) new_anchors h'
          = Ok {| get_radius := get_radius fiber; get_symmetry := get_symmetry fiber;
                  get_sampling := get_sampling fiber; get_anchors := new_anchors |})
    as Hnew.
  { apply create_fiber_Ok. repeat split; try done. exists anchors'.
    subst h'. rewrite lookup_insert_ne, lookup_insert_eq by done.
    repeat split; [|done].
    apply comprehension_length in Hanchors'. by destruct anchors', anchors. }
  rewrite Hnew. simpl. eexists _, _, _, pts'. repeat split; [done | |done].
  subst h'. apply lookup_insert_eq.
Qed.

(** C6. For a fiber whose [N] anchors are in the store, and every
    translation or rotation applied to it, the fiber returned has exactly
    [N] anchors, and its anchor at each position is the image of the anchor
    of the input at that position. *)
Theorem transforms_preserve_anchors t fiber bbox h
    (anchors pts : list (point num)) new_bbox new_fiber h' :
  h !! get_anchors fiber = Some anchors →
  h !! bbox = Some pts →
  apply_transform t fiber bbox h = Ok ((new_bbox, new_fiber), h') →
  ∃ anchors',
    h' !! get_anchors new_fiber = Some anchors'
    ∧ length anchors' = length anchors
    ∧ ∀ i a, anchors !! i = Some a →
        ∃ a', anchors' !! i = Some a' ∧ transform_point t a = Ok a'.
Proof.
  intros Hanchors Hbbox.
  rewrite apply_transform_shape, (transform_fiber_run _ _ _ _ anchors pts) by done.
  intros (anchors' & Hanchors' & Hrun)%bind_Ok.
  apply bind_Ok in Hrun as (pts' & Hpts' & Hrun).
  apply bind_Ok in Hrun as (fiber' & Hfiber' & [= <- <- <-]).
  apply create_fiber_Ok in Hfiber' as ((anchors'' & Hlookup & _) & _ & _ & _ & ->).
  simpl. exists anchors''. split; [done|].
  destruct (new_list_twice h) as (_ & _ & Hfresh).
  assert (anchors'' = anchors') as ->.
  { rewrite lookup_insert_ne, lookup_insert_eq in Hlookup; [congruence|done]. }
  split; [by eapply comprehension_length|].
  apply comprehension_Ok in Hanchors'. intros i a Hi.
  destruct (Forall2_lookup_l _ _ _ _ _ Hanchors' Hi) as (a' & ? & ?). eauto.
Qed.

(** C7. On a well-formed fiber, a bounding box of 3-vectors and a
    translation 3-vector, [translate_fiber] returns; the anchors of the
    fiber returned are those of the input, each with the translation added
    entry by entry, and so are the points of the bounding box returned; the
    radius, the symmetry and the sampling are those of the input; every list
    that was in the store, among them the anchors of the input and its
    bounding box, is as it was, the two lists returned being new ones. *)
Theorem translate_fiber_translates fiber bbox (translation : point num) h
    (anchors pts : list (point num)) :
  well_formed fiber h →
  h !! get_anchors fiber = Some anchors →
  h !! bbox = Some pts → Forall vec3 pts →
  vec3 translation →
  ∃ t_bbox new_fiber h',
    Translation.translate_fiber fiber bbox translation h
      = Ok ((t_bbox, new_fiber), h')
    ∧ h' !! get_anchors new_fiber
      = Some ((fun a => zip_with np_add a translation) <$> anchors)
    ∧ h' !! t_bbox = Some ((fun pt => zip_with np_add pt translation) <$> pts)
    ∧ get_radius new_fiber = get_radius fiber
    ∧ get_symmetry new_fiber = get_symmetry fiber
    ∧ get_sampling new_fiber = get_sampling fiber
    ∧ (∀ l, l ∈ dom h → h' !! l = h !! l)
    ∧ (get_anchors new_fiber ∉ dom h) ∧ (t_bbox ∉ dom h)
    ∧ get_anchors new_fiber ≠ t_bbox.
Proof.
  intros Hwf Hanchors Hbbox Hpts Ht.
  destruct (apply_transform_returns (Translate translation) fiber bbox h pts)
    as (t_bbox & new_fiber & h' & pts' & Hrun & _); [done..|].
  exists t_bbox, new_fiber, h'. split; [done|].
  simpl in Hrun. rewrite translate_fiber_shape in Hrun.
  rewrite (transform_fiber_run _ _ _ _ anchors pts) in Hrun by done.
  assert (∀ xs : list (point num), Forall vec3 xs →
            comprehension (fun a => array_add a translation) xs
            = Ok ((fun a => zip_with np_add a translation) <$> xs)) as Hadd.
  { intros xs Hxs. apply comprehension_total. eapply Forall_impl; [done|].
    intros a Ha. by apply array_binop_vec3. }
  apply create_fiber_Ok in Hwf as ((anchors0 & Hanchors0 & _ & Hvec) & _).
  assert (anchors0 = anchors) as -> by congruence.
  rewrite !Hadd in Hrun by done. simpl in Hrun.
  apply bind_Ok in Hrun as (fiber' & Hfiber' & [= <- <- <-]).
  apply create_fiber_Ok in Hfiber' as (_ & _ & _ & _ & ->). simpl.
  set (new_anchors := fresh (dom h)).
  set (new_bbox := fresh (dom (<[new_anchors:=[]]> h))).
  destruct (new_list_twice h) as (Hfresh1 & Hfresh2 & Hne).
  fold new_anchors in Hfresh1, Hfresh2, Hne. fold new_bbox in Hfresh2, Hne.
  repeat split; try done.
  - by rewrite lookup_insert_ne, lookup_insert_eq.
  - by rewrite lookup_insert_eq.
  - intros l Hl. rewrite !lookup_insert_ne; [done|by intros <-..].
Qed.
End TransformProperties.

(** ** Strings *)

Lemma string_app_nil_r (s : string) : s +:+ "" = s.
Proof. induction s as [|c s IH]; [done|]. unfold String.app; simpl. by f_equal. Qed.





(** ** Paths *)

Section PathProperties.
Import Os.










End PathProperties.

(** ** The operating system *)

Section OsProperties.
Import Os.
Implicit Types (s : fs) (name text : string) (ws : list (string * string)).

Lemma io_bind_run {A B} (m : io A) (k : A → io B) s :
  (m ≫= k) s = match m s with
               | (Ok a, s') => k a s'
               | (Raise e, s') => (Raise e, s')
               end.
Proof. done. Qed.

Lemma io_bind_assoc {A B C} (m : io A) (k1 : A → io B) (k2 : B → io C) s :
  ((m ≫= k1) ≫= k2) s = (m ≫= fun a => k1 a ≫= k2) s.
Proof. rewrite !io_bind_run. by destruct (m s) as [[a|e] s']. Qed.








(** *** The output directory *)




Lemma ensure_directory_raises s name :
  dir_available s name = false →
  ensure_directory name s
  = (Raise (if bool_decide (name = "") then FileNotFoundError name
            else NotADirectoryError name),
     record (EvMakedirs name) s).
Proof.
  unfold dir_available. intros [Hthere Hway]%orb_false_elim.
  unfold ensure_directory. rewrite io_bind_run. unfold path_exists.
  rewrite Hthere. simpl. unfold makedirs.
  change (is_dir (record (EvMakedirs name) s)) with (is_dir s).
  change (is_file (record (EvMakedirs name) s)) with (is_file s).
  unfold present in Hthere.
  destruct (bool_decide (name = "")); simpl in *; [done|].
  rewrite Hthere. apply negb_false_iff in Hway. by rewrite Hway.
Qed.





(** *** Opening and writing *)









End OsProperties.

(** ** geometry_handler.py *)

Lemma py_index_nat {A} (l : list A) (i : nat) (x : A) :
  l !! i = Some x → py_index l (Z.of_nat i) = Ok x.
Proof.
  intros Hi. unfold py_index. pose proof (lookup_lt_Some _ _ _ Hi).
  cbv zeta. rewrite (bool_decide_false (Z.of_nat i < 0)) by lia.
  rewrite bool_decide_true by lia. by rewrite Nat2Z.id, Hi.
Qed.

Section GeometryHandlerProperties.
Import ConfigBuilder GeometryHandler.
Context {num Bundle Sphere : Type} `{GeometryObjects num Bundle Sphere}.
Implicit Types (self : GeometryHandler num Bundle Sphere) (s : Os.fs).
Implicit Types (output_naming simulation_path : string).

(** The comprehension over [range(self._get_number_of_bundles())] builds
    the placeholders of the spec. *)
Lemma bundle_entries self :
  ∃ entries,
    comprehension (_generate_bundle_base self) (range (_get_number_of_bundles self))
    = Ok entries
    ∧ SBundle <$> entries = imap spec_placeholder (bundles self).
Proof.
  exists (imap (fun i bundle =>
            create_bundle_object "" ["f_" +:+ pretty (Z.of_nat i)] [1]
              (get_bundle_center bundle)) (bundles self)).
  split; [|by rewrite fmap_imap].
  apply comprehension_Ok, Forall2_same_length_lookup.
  unfold _get_number_of_bundles.
  split; [by rewrite length_range, length_imap, Nat2Z.id|].
  intros i z entry Hz Hentry.
  rewrite list_lookup_imap in Hentry.
  destruct (bundles self !! i) as [bundle|] eqn:Hi; [|done].
  rewrite lookup_range in Hz
    by (rewrite Nat2Z.id; by eapply lookup_lt_Some).
  injection Hz as <-. injection Hentry as <-.
  unfold _generate_bundle_base. by rewrite (py_index_nat _ _ _ Hi).
Qed.

(** The loop over the bundles is the plain loop over the spline files of the
    spec. *)
Lemma write_splines_as_write_all self output_naming simulation_path
    (rest : list Bundle) (k : nat) s :
  (∀ i bundle, rest !! i = Some bundle → bundles self !! (k + i)%nat = Some bundle) →
  write_splines self output_naming simulation_path
    (Z.of_nat <$> seq k (length rest)) s
  = Os.write_all
      (imap (fun i bundle =>
               (Os.join simulation_path
                  (output_naming +:+ "_f_" +:+ pretty (Z.of_nat (k + i)) +:+ ".vspl"),
                bundle_serialize bundle)) rest) s.
Proof.
  revert k s. induction rest as [|bundle rest IH]; intros k s Hrest; [done|].
  rewrite imap_cons.
  rewrite (imap_ext _ (fun i bundle =>
             (Os.join simulation_path
                (output_naming +:+ "_f_" +:+ pretty (Z.of_nat (S k + i)) +:+ ".vspl"),
              bundle_serialize bundle)))
    by (intros i b _; simpl; by rewrite Nat.add_succ_r).
  rewrite Nat.add_0_r.
  pose proof (Hrest 0%nat bundle eq_refl) as Hbundle.
  rewrite Nat.add_0_r in Hbundle.
  cbn [length seq fmap list_fmap write_splines Os.write_all fst snd].
  unfold spline_file_name. rewrite !io_bind_run.
  destruct (Os.open_w _ s) as [[f|e] s1]; [|done].
  rewrite io_bind_run. unfold Os.pure. rewrite (py_index_nat _ _ _ Hbundle).
  rewrite !io_bind_run.
  destruct (Os.write f _ s1) as [[[]|e] s2]; [|done].
  apply IH. intros i b Hi. replace (S k + i)%nat with (k + S i)%nat by lia.
  by apply (Hrest (S i)).
Qed.

Lemma create_world_spec self :
  create_world (length (get_resolution self)) (get_resolution self)
  = Ok (spec_world self).
Proof. unfold create_world. by rewrite bool_decide_true. Qed.

(** [generate_json_configuration_files] sees to the output directory and
    then writes the files of the spec, one after the other, the geometry
    document first. *)
Lemma generate_as_writes self output_naming simulation_path s :
  generate_json_configuration_files self output_naming simulation_path s
  = (Os.ensure_directory simulation_path;;
     Os.write_all (spec_files self output_naming simulation_path)) s.
Proof.
  unfold generate_json_configuration_files, Os.ensure_directory.
  rewrite io_bind_assoc, !io_bind_run.
  destruct (Os.path_exists simulation_path s) as [[there|e] s1]; [|done].
  rewrite !io_bind_run.
  destruct ((if negb there then Os.makedirs simulation_path else mret ()) s1)
    as [[[]|e] s2]; [|done].
  unfold spec_files, spec_geometry_file, geometry_file_name.
  cbn [Os.write_all fst snd]. rewrite !io_bind_run.
  destruct (Os.open_w _ s2) as [[f|e] s3]; [|done].
  rewrite io_bind_run. unfold Os.pure at 1. rewrite create_world_spec.
  destruct (bundle_entries self) as (entries & Hentries & Hplaceholders).
  rewrite io_bind_run. unfold Os.pure at 1. rewrite Hentries.
  cbv zeta. rewrite Hplaceholders. fold (spec_structures self).
  rewrite !io_bind_run.
  destruct (Os.write f _ s3) as [[[]|e] s4]; [|done].
  rewrite range_of_nat.
  by apply (write_splines_as_write_all self output_naming simulation_path
              (bundles self) 0).
Qed.




(** *** The files of the spec are as many files *)







(** The handler gives the bundles their indices in the order in which they
    are added, and keeps the spheres in that order too. *)
Lemma add_bundle_index self bundle :
  bundles (add_bundle self bundle) !! length (bundles self) = Some bundle
  ∧ (∀ i, (i < length (bundles self))%nat →
       bundles (add_bundle self bundle) !! i = bundles self !! i)
  ∧ spheres (add_bundle self bundle) = spheres self.
Proof.
  simpl. split; [by rewrite list_lookup_middle|].
  split; [|done]. intros i Hi. by rewrite lookup_app_l.
Qed.

Lemma add_sphere_index self sphere :
  spheres (add_sphere self sphere) !! length (spheres self) = Some sphere
  ∧ (∀ i, (i < length (spheres self))%nat →
       spheres (add_sphere self sphere) !! i = spheres self !! i)
  ∧ bundles (add_sphere self sphere) = bundles self.
Proof.
  simpl. split; [by rewrite list_lookup_middle|].
  split; [|done]. intros i Hi. by rewrite lookup_app_l.
Qed.




(** The files written do not depend on the spacing. *)
Lemma spacing_not_written self1 self2 output_naming simulation_path s :
  resolution self1 = resolution self2 →
  bundles self1 = bundles self2 →
  spheres self1 = spheres self2 →
  generate_json_configuration_files self1 output_naming simulation_path s
  = generate_json_configuration_files self2 output_naming simulation_path s.
Proof.
  intros Hres Hbundles Hspheres. rewrite !generate_as_writes.
  unfold spec_files, spec_geometry_file, spec_spline_files, spec_world,
    spec_structures.
  by rewrite Hres, Hbundles, Hspheres.
Qed.




(** C10. With the default [simulation_path], the empty string,
    [generate_json_configuration_files] raises the error of [makedirs],
    whatever the handler and the file system: the directories and the files
    are as they were, and the only call recorded is that of [makedirs], no
    file having been opened or written. *)
Theorem default_simulation_path_raises self output_naming s :
  ∃ s',
    generate_json_configuration_files self output_naming default_simulation_path s
      = (Raise (FileNotFoundError ""), s')
    ∧ Os.dirs s' = Os.dirs s
    ∧ Os.files s' = Os.files s
    ∧ Os.log s' = Os.log s ++ [Os.EvMakedirs ""].
Proof.
  unfold default_simulation_path.
  assert (Os.dir_available s "" = false) as Hdir.
  { unfold Os.dir_available, Os.present. by rewrite bool_decide_true. }
  rewrite generate_as_writes, io_bind_run, (ensure_directory_raises s "" Hdir).
  rewrite bool_decide_true by done.
  exists (Os.record (Os.EvMakedirs "") s). by repeat split.
Qed.
End GeometryHandlerProperties.

(** ** The theorems at work on the example data *)

Section Examples.
Import GeometryFactory ConfigBuilder GeometryHandler Transform.
Existing Instance Example.PyNum_Z.
Existing Instance Example.objects.

Lemma generate_gradient_profile_equal_lengths_example :
  length [1000; 2000] = length [[1; 0; 0]; [0; 1; 0]]
  ∧ let profile :=
      SimulationFactory.generate_gradient_profile
        [1000; 2000] [[1; 0; 0]; [0; 1; 0]] 2 SimulationFactory.STEJSKAL_TANNER [] [] in
    length (SimulationFactory.gp_bvals profile)
    = length (SimulationFactory.gp_bvecs profile).
Proof.
  split; [reflexivity|].
  apply (generate_gradient_profile_equal_lengths (num := Z)). reflexivity.
Defined.

(** A quarter turn in the XY plane about the origin. *)
Lemma transforms_preserve_anchors_example :
  ∃ new_bbox new_fiber h',
    Example.store !! get_anchors Example.fiber = Some [[1; 2; 3]; [4; 5; 6]]
    ∧ Example.store !! 2%positive = Some [[0; 0; 0]]
    ∧ apply_transform
        (Rotate {| Rotation.rot_plane := Rotation.XY;
                   Rotation.rot_cos := 0; Rotation.rot_sin := 1 |}
                [0; 0; 0] [])
        Example.fiber 2%positive Example.store
      = Ok ((new_bbox, new_fiber), h')
    ∧ ∃ anchors',
        h' !! get_anchors new_fiber = Some anchors'
        ∧ length anchors' = 2%nat
        ∧ ∀ i a, [[1; 2; 3]; [4; 5; 6]] !! i = Some a →
            ∃ a', anchors' !! i = Some a'
              ∧ transform_point
                  (Rotate {| Rotation.rot_plane := Rotation.XY;
                             Rotation.rot_cos := 0; Rotation.rot_sin := 1 |}
                          [0; 0; 0] []) a = Ok a'.
Proof.
  eexists _, _, _.
  assert (Example.store !! get_anchors Example.fiber = Some [[1; 2; 3]; [4; 5; 6]])
    as Hanchors by reflexivity.
  assert (Example.store !! 2%positive = Some [[0; 0; 0]]) as Hbbox by reflexivity.
  split; [exact Hanchors|]. split; [exact Hbbox|].
  split; [vm_compute; reflexivity|].
  refine (transforms_preserve_anchors (num := Z) _ _ _ _ _ _ _ _ _
            Hanchors Hbbox _).
  vm_compute. reflexivity.
Defined.

Lemma translate_fiber_translates_example :
  well_formed Example.fiber Example.store
  ∧ Example.store !! get_anchors Example.fiber = Some [[1; 2; 3]; [4; 5; 6]]
  ∧ Example.store !! 2%positive = Some [[0; 0; 0]]
  ∧ Forall vec3 [[0; 0; 0]]
  ∧ vec3 [10; 20; 30]
  ∧ ∃ t_bbox new_fiber h',
      Translation.translate_fiber Example.fiber 2%positive [10; 20; 30] Example.store
        = Ok ((t_bbox, new_fiber), h')
      ∧ h' !! get_anchors new_fiber = Some [[11; 22; 33]; [14; 25; 36]]
      ∧ h' !! t_bbox = Some [[10; 20; 30]]
      ∧ get_radius new_fiber = 4
      ∧ get_symmetry new_fiber = 1
      ∧ get_sampling new_fiber = 30
      ∧ (∀ l, l ∈ dom Example.store → h' !! l = Example.store !! l)
      ∧ (get_anchors new_fiber ∉ dom Example.store)
      ∧ (t_bbox ∉ dom Example.store)
      ∧ get_anchors new_fiber ≠ t_bbox.
Proof.
  assert (well_formed Example.fiber Example.store) as Hwf by reflexivity.
  assert (Forall (vec3 (num := Z)) [[0; 0; 0]]) as Hpts
    by (repeat constructor).
  repeat (split; [first [exact Hwf | exact Hpts | reflexivity]|]).
  exact (translate_fiber_translates (num := Z) Example.fiber 2%positive
           [10; 20; 30] Example.store [[1; 2; 3]; [4; 5; 6]] [[0; 0; 0]]
           Hwf eq_refl eq_refl Hpts eq_refl).
Defined.





End Examples.

(** * Further properties of the code *)

(** ** simulation_factory.py: gradient profiles *)

Section GradientProfileProperties.
Import SimulationFactory.
Context {num : Type} `{PyNum num}.


(** X2. A zero or negative [n_b0] pads nothing: the profile holds [bvals] and
    [bvecs] as they were given. *)
Theorem gradient_profile_no_padding
    (bvals : list num) (bvecs : list (list num)) (n_b0 : Z) g_type args kwargs :
  n_b0 ≤ 0 →
  let profile := generate_gradient_profile bvals bvecs n_b0 g_type args kwargs in
  gp_bvals profile = bvals ∧ gp_bvecs profile = bvecs.
Proof.
  intros Hn profile. subst profile.
  rewrite gradient_profile_bvals, gradient_profile_bvecs.
  by replace (Z.to_nat n_b0) with 0%nat by lia.
Qed.

(** X3. Padding a profile that is already padded adds up: for [n] and [m]
    not negative, padding by [n] and then padding the lists obtained by [m]
    gives the lists of one padding by [n + m]. *)
Theorem gradient_profile_padding_adds_up
    (bvals : list num) (bvecs : list (list num)) (n m : Z) g_type args kwargs :
  0 ≤ n → 0 ≤ m →
  let first := generate_gradient_profile bvals bvecs n g_type args kwargs in
  let second :=
    generate_gradient_profile (gp_bvals first) (gp_bvecs first) m g_type args kwargs in
  let both := generate_gradient_profile bvals bvecs (m + n) g_type args kwargs in
  gp_bvals second = gp_bvals both ∧ gp_bvecs second = gp_bvecs both.
Proof.
  intros Hn Hm first second both. subst first second both.
  rewrite !gradient_profile_bvals, !gradient_profile_bvecs.
  rewrite !app_assoc, <- !replicate_add, Z2Nat.inj_add by done.
  done.
Qed.
End GradientProfileProperties.

(** ** simulation_factory.py: compartments and artifact models *)

Section ArtifactProperties.
Import SimulationFactory Artifacts.
Context {num : Type} `{PyNum num}.

Lemma compartment_of_inv (c : CompartmentType) (r : pydict num) :
  compartment_of c r →
  dict_get "ID" r = Some (VStr (CompartmentType_value c))
  ∧ (c ∈ [INTRA_AXONAL; INTER_AXONAL]
     ∧ dict_get "type" r = Some (VStr "fiber")
     ∧ dict_get "model" r ∈ [Some (VStr "stick"); Some (VStr "tensor")]
     ∨ c ∈ [EXTRA_AXONAL_1; EXTRA_AXONAL_2]
       ∧ dict_get "type" r = Some (VStr "non-fiber")
       ∧ dict_get "model" r = Some (VStr "ball")).
Proof.
  unfold compartment_of, generate_fiber_stick_compartment,
    generate_fiber_tensor_compartment, generate_extra_ball_compartment.
  intros [(d & t1 & t2 & Hr)|[(d1 & d2 & d3 & t1 & t2 & Hr)|(d & t1 & t2 & Hr)]];
    case_bool_decide; simplify_eq; (split; [done|]);
    first [ left; split; [done|]; split; [done|]; simpl; set_solver
          | right; by repeat split ].
Qed.

(** X4. The ["ID"] of a compartment dictionary tells the compartment type:
    two dictionaries returned by the compartment functions, whichever of the
    three, with the same ["ID"] were made for the same type; and a dictionary
    whose ["type"] is ["fiber"] never has the ["ID"] of an extra-axonal
    compartment, nor a ball the ["ID"] of an intra- or inter-axonal one. *)
Theorem compartment_id_tells_type (c1 c2 : CompartmentType) (r1 r2 : pydict num) :
  compartment_of c1 r1 → compartment_of c2 r2 →
  (dict_get "ID" r1 = dict_get "ID" r2 → c1 = c2)
  ∧ (dict_get "type" r1 = Some (VStr "fiber") →
     dict_get "ID" r1 ∈ [Some (VStr "1"); Some (VStr "2")])
  ∧ (dict_get "model" r1 = Some (VStr "ball") →
     dict_get "ID" r1 ∈ [Some (VStr "3"); Some (VStr "4")]).
Proof.
  intros [Hid1 Hkind1]%compartment_of_inv [Hid2 _]%compartment_of_inv.
  rewrite Hid1, Hid2. split; [|split].
  - intros [= Heq]. by destruct c1, c2.
  - intros Htype. destruct Hkind1 as [[Hc _]|(_ & Htype' & _)]; [|congruence].
    destruct c1; set_solver.
  - intros Hmodel. destruct Hkind1 as [(_ & _ & Hfiber)|(Hc & _)].
    + rewrite Hmodel in Hfiber. set_solver.
    + destruct c1; set_solver.
Qed.

Lemma py_index_nonneg {A} (l : list A) (i : nat) :
  py_index l (Z.of_nat i)
  = match l !! i with Some x => Ok x | None => Raise IndexError end.
Proof.
  destruct (l !! i) as [x|] eqn:Hi; [by apply py_index_nat|].
  apply lookup_ge_None in Hi. unfold py_index. cbv zeta.
  rewrite (bool_decide_false (Z.of_nat i < 0)) by lia.
  by rewrite bool_decide_false by lia.
Qed.

(** What [generate_motion_model] returns, entry by entry. *)
Lemma motion_model_run randomize direction_indexes (rotation translation : list num) :
  generate_motion_model randomize direction_indexes rotation translation
  = match rotation, translation with
    | r0 :: r1 :: r2 :: _, t0 :: t1 :: t2 :: _ =>
        Ok [ ("descr", Str "doAddMotion"); ("randomMotion", Bool randomize);
             ("motionvolumes", direction_indexes);
             ("rotation0", Num r0); ("rotation1", Num r1); ("rotation2", Num r2);
             ("translation0", Num t0); ("translation1", Num t1);
             ("translation2", Num t2); ("value", Bool true) ]
    | _, _ => Raise IndexError
    end.
Proof.
  unfold generate_motion_model.
  change 0 with (Z.of_nat 0). change 1 with (Z.of_nat 1). change 2 with (Z.of_nat 2).
  rewrite !py_index_nonneg.
  destruct rotation as [|r0 [|r1 [|r2 rotation]]]; try done.
  by destruct translation as [|t0 [|t1 [|t2 translation]]].
Qed.

(** X5. [generate_motion_model] reads the first three entries of [rotation]
    and of [translation]: it returns exactly when each has at least three
    entries, raises [IndexError] otherwise, and entries after the third change
    nothing. *)
Theorem motion_model_reads_three_entries
    randomize direction_indexes (rotation translation : list num) :
  ((∃ a, generate_motion_model randomize direction_indexes rotation translation = Ok a)
   ↔ (3 ≤ length rotation ∧ 3 ≤ length translation)%nat)
  ∧ (generate_motion_model randomize direction_indexes rotation translation
       = Raise IndexError
     ↔ (length rotation < 3 ∨ length translation < 3)%nat)
  ∧ generate_motion_model randomize direction_indexes rotation translation
    = generate_motion_model randomize direction_indexes
        (take 3 rotation) (take 3 translation).
Proof.
  rewrite !motion_model_run.
  destruct rotation as [|r0 [|r1 [|r2 rotation]]];
    destruct translation as [|t0 [|t1 [|t2 translation]]]; simpl;
    (split; [split; [intros [a Ha]; (done || lia) | intros [??]; (lia || eauto)]|]);
    (split; [split; [intros Ha; (done || lia) | intros [?|?]; (lia || done)]|]);
    done.
Qed.

Lemma returned_by_inv (g : generator) (a : artifact num) :
  returned_by g a →
  dict_get "descr" a
  = Some (Str match g with
              | NoiseModel => "addnoise"
              | MotionModel => "doAddMotion"
              | DistortionModel => "doAddDistortions"
              | EddyCurrentModel => "addeddycurrents"
              | GhostingModel => "addghosts"
              | SignalSpikesModel => "addspikes"
              | AliasingModel => "addaliasing"
              | GibbsRingingModel => "addringing"
              end)
  ∧ dict_get "value" a = Some (Bool true)
  ∧ NoDup a.*1.
Proof.
  destruct 1 as [| ? ? rotation translation a Ha | | | | | |];
    try (split; [done|split; [done|]]; simpl;
         repeat (apply NoDup_cons; split; [set_solver|]); apply NoDup_nil_2).
  rewrite motion_model_run in Ha.
  destruct rotation as [|r0 [|r1 [|r2 rotation]]]; try done.
  destruct translation as [|t0 [|t1 [|t2 translation]]]; try done.
  injection Ha as <-. split; [done|split; [done|]]. simpl.
  repeat (apply NoDup_cons; split; [set_solver|]). apply NoDup_nil_2.
Qed.

(** X6. The ["descr"] of an artifact dictionary tells which of the eight
    functions returned it: two dictionaries with the same ["descr"] come from
    the same function.  Every such dictionary has its ["value"] set to [True],
    and no key twice. *)
Theorem artifact_descr_tells_generator (g1 g2 : generator) (a1 a2 : artifact num) :
  returned_by g1 a1 → returned_by g2 a2 →
  (dict_get "descr" a1 = dict_get "descr" a2 → g1 = g2)
  ∧ dict_get "value" a1 = Some (Bool true)
  ∧ NoDup a1.*1.
Proof.
  intros (Hd1 & Hv1 & Hk1)%returned_by_inv (Hd2 & _)%returned_by_inv.
  rewrite Hd1, Hd2. split; [|done].
  intros [= Heq]. by destruct g1, g2.
Qed.
End ArtifactProperties.

(** ** geometry_handler.py: a handler in use *)

Section CallsProperties.
Import ConfigBuilder GeometryHandler Calls.
Context {num Bundle Sphere : Type} `{GeometryObjects num Bundle Sphere}.
Implicit Types (self : GeometryHandler num Bundle Sphere) (cs : list (call Bundle Sphere)).

(** What a chain of calls leaves in the handler. *)
Lemma do_calls_fields self cs :
  resolution (do_calls self cs) = resolution self
  ∧ spacing (do_calls self cs) = spacing self
  ∧ bundles (do_calls self cs) = bundles self ++ bundles_of cs
  ∧ spheres (do_calls self cs) = spheres self ++ spheres_of cs.
Proof.
  revert self. induction cs as [|c cs IH]; intros self.
  - unfold bundles_of, spheres_of. simpl. by rewrite !app_nil_r.
  - unfold do_calls in *. simpl.
    destruct (IH (do_call self c)) as (-> & -> & -> & ->).
    unfold bundles_of, spheres_of. destruct c; simpl; by rewrite <- ?app_assoc.
Qed.

(** X7. However many bundles and spheres are added to a handler, in whatever
    order, [get_resolution] and [get_spacing] return what the handler was
    built with, and [get_simulation_handler] hands the simulation handler
    that resolution, that spacing and the compartments it was given. *)
Theorem simulation_handler_gets_world
    {SimulationHandler compartment : Type}
    (new_SimulationHandler :
       list Z → point num → option (list compartment) → SimulationHandler)
    (res : list Z) (sp : point num) cs compartments :
  let geometry_handler := do_calls (init res sp) cs in
  get_resolution geometry_handler = res
  ∧ get_spacing geometry_handler = sp
  ∧ get_simulation_handler new_SimulationHandler geometry_handler compartments
    = new_SimulationHandler res sp compartments.
Proof.
  intros geometry_handler. subst geometry_handler.
  unfold get_simulation_handler, get_resolution, get_spacing.
  destruct (do_calls_fields (init res sp) cs) as (-> & -> & _).
  done.
Qed.

(** X8. A chain of [add_bundle] and [add_sphere] calls keeps the bundles in
    the order in which they were added, and the spheres in theirs, and the
    number of bundles is the number of [add_bundle] calls; how the two kinds
    of calls are interleaved does not matter: two chains that add the same
    bundles in the same order, and the same spheres in the same order, make
    [generate_json_configuration_files] do the same. *)
Theorem interleaving_does_not_matter
    (res : list Z) (sp : point num) cs1 cs2
    output_naming simulation_path (s : Os.fs) :
  bundles_of cs1 = bundles_of cs2 →
  spheres_of cs1 = spheres_of cs2 →
  bundles (do_calls (init res sp) cs1) = bundles_of cs1
  ∧ spheres (do_calls (init res sp) cs1) = spheres_of cs1
  ∧ _get_number_of_bundles (do_calls (init res sp) cs1)
    = Z.of_nat (length (bundles_of cs1))
  ∧ generate_json_configuration_files (do_calls (init res sp) cs1)
      output_naming simulation_path s
    = generate_json_configuration_files (do_calls (init res sp) cs2)
        output_naming simulation_path s.
Proof.
  intros Hbundles Hspheres.
  destruct (do_calls_fields (init res sp) cs1) as (Hr1 & _ & Hb1 & Hs1).
  destruct (do_calls_fields (init res sp) cs2) as (Hr2 & _ & Hb2 & Hs2).
  simpl in *. unfold _get_number_of_bundles. rewrite Hb1, Hs1.
  repeat split.
  apply spacing_not_written; congruence.
Qed.

(** X9. [_generate_bundle_base(i)] indexes the bundles as Python does: with
    [n] bundles it returns exactly for [-n <= i < n] and raises [IndexError]
    otherwise; a negative [i] stands for the bundle of index [n + i], and the
    file reference is then made of the negative number. *)
Theorem bundle_base_index_bounds self (i : Z) :
  let n := Z.of_nat (length (bundles self)) in
  ((∃ entry, _generate_bundle_base self i = Ok entry) ↔ - n ≤ i < n)
  ∧ (_generate_bundle_base self i = Raise IndexError ↔ ¬ (- n ≤ i < n))
  ∧ ∀ entry, _generate_bundle_base self i = Ok entry →
      ∃ bundle,
        bundles self !! Z.to_nat (i `mod` n) = Some bundle
        ∧ entry = {| bo_name := ""; bo_file_refs := ["f_" +:+ pretty i];
                     bo_weights := [1];
                     bo_center := get_bundle_center bundle |}.
Proof.
  intros n. unfold _generate_bundle_base, py_index. fold n.
  destruct (decide (- n ≤ i < n)) as [Hin|Hout].
  - set (j := if bool_decide (i < 0) then n + i else i).
    assert (0 ≤ j < n ∧ j = i `mod` n) as [Hj Hmod].
    { subst j. case_bool_decide.
      - split; [lia|]. apply Z.mod_unique with (-1); lia.
      - split; [lia|]. symmetry. apply Z.mod_small. lia. }
    rewrite bool_decide_true by done.
    destruct (lookup_lt_is_Some_2 (bundles self) (Z.to_nat j)) as [bundle Hbundle];
      [lia|].
    rewrite Hbundle. simpl. split; [|split].
    + split; [done|eauto].
    + split; [done|]. by intros [].
    + intros entry [= <-]. exists bundle. by rewrite <- Hmod.
  - rewrite bool_decide_false by (case_bool_decide; lia). simpl.
    split; [|split]; [split; [by intros [? ?]|done]|done|done].
Qed.
End CallsProperties.

(** ** Paths: a file name joined to a directory *)

Section JoinProperties.
Import Os.






End JoinProperties.

(** ** geometry_handler.py: when and how the generation fails *)

Section GenerationProperties.
Import ConfigBuilder GeometryHandler.
Context {num Bundle Sphere : Type} `{GeometryObjects num Bundle Sphere}.
Implicit Types (self : GeometryHandler num Bundle Sphere) (s : Os.fs).
Implicit Types (output_naming simulation_path : string).











End GenerationProperties.

(** ** utils/Translation.py: the shapes numpy accepts, and two translations *)

Section TranslationProperties.
Import GeometryFactory Transform.
Context {num : Type} `{PyNum num}.
Implicit Types (h : heap num) (fiber : Fiber num) (translation : point num).

(** What [translate_fiber] returns when the sum of every anchor and of every
    point of the bounding box with the translation is known. *)
Lemma translate_fiber_with (g : point num → point num) fiber bbox translation h
    (anchors pts : list (point num)) :
  well_formed fiber h →
  h !! get_anchors fiber = Some anchors →
  h !! bbox = Some pts →
  Forall (fun a => array_add a translation = Ok (g a)) anchors →
  Forall (fun pt => array_add pt translation = Ok (g pt)) pts →
  (∀ a, vec3 a → vec3 (g a)) →
  let new_anchors := fresh (dom h) in
  let new_bbox := fresh (dom (<[new_anchors := []]> h)) in
  let h' := <[new_bbox := g <$> pts]> (<[new_anchors := g <$> anchors]> h) in
  let new_fiber := {| get_radius := get_radius fiber;
                      get_symmetry := get_symmetry fiber;
                      get_sampling := get_sampling fiber;
                      get_anchors := new_anchors |} in
  Translation.translate_fiber fiber bbox translation h = Ok ((new_bbox, new_fiber), h')
  ∧ well_formed new_fiber h'
  ∧ h' !! new_anchors = Some (g <$> anchors)
  ∧ h' !! new_bbox = Some (g <$> pts).
Proof.
  intros Hwf Hanchors Hbbox Hsum Hsumb Hg new_anchors new_bbox h' new_fiber.
  apply create_fiber_Ok in Hwf
    as ((anchors0 & Hanchors0 & Hne & Hvec) & Hr & Hsym & Hsam & Hfiber).
  assert (anchors0 = anchors) as -> by congruence.
  destruct (new_list_twice h) as (_ & _ & Hfresh).
  fold new_anchors in Hfresh. fold new_bbox in Hfresh.
  assert (h' !! new_anchors = Some (g <$> anchors)) as Hnew_anchors.
  { unfold h'. by rewrite lookup_insert_ne, lookup_insert_eq. }
  assert (h' !! new_bbox = Some (g <$> pts)) as Hnew_bbox.
  { unfold h'. apply lookup_insert_eq. }
  assert (well_formed new_fiber h') as Hwf'.
  { apply create_fiber_Ok. repeat split; try done. exists (g <$> anchors).
    repeat split; [done|by destruct anchors|].
    apply Forall_fmap. eapply Forall_impl; [exact Hvec|]. intros a Ha. by apply Hg. }
  split; [|done].
  rewrite translate_fiber_shape, (transform_fiber_run _ _ _ _ anchors pts) by done.
  rewrite (comprehension_total _ g anchors), (comprehension_total _ g pts) by done.
  simpl. fold new_anchors. fold new_bbox. fold h'.
  unfold well_formed in Hwf'. simpl in Hwf'. by rewrite Hwf'.
Qed.

Lemma zip_with_assoc (op : num → num → num) (a b c : point num) :
  (∀ x y z, op (op x y) z = op x (op y z)) →
  zip_with op (zip_with op a b) c = zip_with op a (zip_with op b c).
Proof.
  intros Hop. revert b c.
  induction a as [|x a IH]; intros [|y b] [|z c]; simpl; try done.
  by rewrite Hop, IH.
Qed.

(** X16. A translation whose length is neither 3 nor 1 is refused: on a
    well-formed fiber the call raises numpy's [ValueError] at the first
    anchor, and no fiber is made. *)
Theorem translate_fiber_refuses_other_lengths fiber bbox translation h
    (pts : list (point num)) :
  well_formed fiber h →
  h !! bbox = Some pts →
  length translation ≠ 3%nat →
  length translation ≠ 1%nat →
  ∃ message,
    Translation.translate_fiber fiber bbox translation h = Raise (ValueError message).
Proof.
  intros Hwf Hbbox H3 H1. eexists.
  apply create_fiber_Ok in Hwf as ((anchors & Hanchors & Hne & Hvec) & _).
  rewrite translate_fiber_shape, (transform_fiber_run _ _ _ _ anchors pts) by done.
  destruct anchors as [|a anchors]; [done|].
  apply Forall_cons in Hvec as [Ha _]. unfold vec3 in Ha.
  simpl. unfold array_add, array_binop.
  rewrite bool_decide_false by congruence.
  destruct a as [|x [|y [|z [|]]]]; try done.
  by destruct translation as [|d [|]].
Qed.

(** X17. A translation of one entry is added to every coordinate, as numpy
    broadcasts it: on a well-formed fiber the call returns a well-formed
    fiber whose anchors are those of the input with that entry added to each
    of their coordinates, and so for the points of the bounding box, of
    whatever length they are. *)
Theorem translate_fiber_broadcasts_one_entry fiber bbox (d : num) h
    (anchors pts : list (point num)) :
  well_formed fiber h →
  h !! get_anchors fiber = Some anchors →
  h !! bbox = Some pts →
  ∃ t_bbox new_fiber h',
    Translation.translate_fiber fiber bbox [d] h = Ok ((t_bbox, new_fiber), h')
    ∧ well_formed new_fiber h'
    ∧ h' !! get_anchors new_fiber
      = Some ((fun a => (fun x => np_add x d) <$> a) <$> anchors)
    ∧ h' !! t_bbox = Some ((fun pt => (fun x => np_add x d) <$> pt) <$> pts).
Proof.
  intros Hwf Hanchors Hbbox.
  assert (∀ a : point num, array_add a [d] = Ok ((fun x => np_add x d) <$> a))
    as Hsum.
  { intros a. unfold array_add, array_binop. case_bool_decide as Hlen.
    - by destruct a as [|x [|]].
    - by destruct a as [|x [|]]. }
  destruct (translate_fiber_with (fun a => (fun x => np_add x d) <$> a)
              fiber bbox [d] h anchors pts) as (Hrun & Hwf' & Ha & Hb); try done.
  - by apply Forall_forall.
  - by apply Forall_forall.
  - intros a. unfold vec3. by rewrite length_fmap.
  - eauto 10.
Qed.

(** X18. Two translations in a row are the translation by their sum, when
    the addition of the numbers is associative (as it is on the integers,
    and is not on the floats): the fiber and the bounding box got from
    translating by [t1] and then by [t2] have the anchors and the points of
    those got from translating by [t1 + t2] at once, and the same radius,
    symmetry and sampling. *)
Theorem translate_fiber_twice fiber bbox (t1 t2 : point num) h
    (anchors pts : list (point num)) :
  (∀ x y z : num, np_add (np_add x y) z = np_add x (np_add y z)) →
  well_formed fiber h →
  h !! get_anchors fiber = Some anchors →
  h !! bbox = Some pts → Forall vec3 pts →
  vec3 t1 → vec3 t2 →
  ∃ bbox1 fiber1 h1 bbox2 fiber2 h2 bbox12 fiber12 h12 anchors' pts',
    Translation.translate_fiber fiber bbox t1 h = Ok ((bbox1, fiber1), h1)
    ∧ Translation.translate_fiber fiber1 bbox1 t2 h1 = Ok ((bbox2, fiber2), h2)
    ∧ Translation.translate_fiber fiber bbox (zip_with np_add t1 t2) h
      = Ok ((bbox12, fiber12), h12)
    ∧ h2 !! get_anchors fiber2 = Some anchors'
    ∧ h12 !! get_anchors fiber12 = Some anchors'
    ∧ h2 !! bbox2 = Some pts'
    ∧ h12 !! bbox12 = Some pts'
    ∧ get_radius fiber2 = get_radius fiber12
    ∧ get_symmetry fiber2 = get_symmetry fiber12
    ∧ get_sampling fiber2 = get_sampling fiber12.
Proof.
  intros Hassoc Hwf Hanchors Hbbox Hpts Ht1 Ht2.
  assert (Forall vec3 anchors) as Hvec.
  { apply create_fiber_Ok in Hwf as ((anchors0 & Hanchors0 & _ & Hvec) & _).
    congruence. }
  assert (∀ (t : point num) (xs : list (point num)), vec3 t → Forall vec3 xs →
            Forall (fun a => array_add a t = Ok (zip_with np_add a t)) xs) as Hsum.
  { intros t xs Ht Hxs. eapply Forall_impl; [done|].
    intros a Ha. by apply array_binop_vec3. }
  assert (∀ (t a : point num), vec3 t → vec3 a → vec3 (zip_with np_add a t)) as Hg.
  { intros t a Ht Ha. by apply array_binop_vec3. }
  assert (∀ (t : point num) (xs : list (point num)), vec3 t → Forall vec3 xs →
            Forall vec3 ((fun a => zip_with np_add a t) <$> xs)) as Hmap.
  { intros t xs Ht Hxs. apply Forall_fmap. eapply Forall_impl; [done|].
    intros a Ha. by apply Hg. }
  destruct (translate_fiber_with (fun a => zip_with np_add a t1)
              fiber bbox t1 h anchors pts) as (Hrun1 & Hwf1 & Ha1 & Hb1); auto.
  set (bbox1 := fresh (dom (<[fresh (dom h) := []]> h))) in *.
  set (fiber1 := {| get_radius := get_radius fiber;
                    get_symmetry := get_symmetry fiber;
                    get_sampling := get_sampling fiber;
                    get_anchors := fresh (dom h) |}) in *.
  set (h1 := <[bbox1 := (fun a => zip_with np_add a t1) <$> pts]>
               (<[fresh (dom h) := (fun a => zip_with np_add a t1) <$> anchors]> h))
    in *.
  destruct (translate_fiber_with (fun a => zip_with np_add a t2)
              fiber1 bbox1 t2 h1
              ((fun a => zip_with np_add a t1) <$> anchors)
              ((fun a => zip_with np_add a t1) <$> pts))
    as (Hrun2 & Hwf2 & Ha2 & Hb2); auto.
  assert (vec3 (zip_with np_add t1 t2)) as Ht12 by by apply Hg.
  destruct (translate_fiber_with (fun a => zip_with np_add a (zip_with np_add t1 t2))
              fiber bbox (zip_with np_add t1 t2) h anchors pts)
    as (Hrun12 & Hwf12 & Ha12 & Hb12); auto.
  assert (∀ xs : list (point num),
            (fun a => zip_with np_add a t2) <$> ((fun a => zip_with np_add a t1) <$> xs)
            = (fun a => zip_with np_add a (zip_with np_add t1 t2)) <$> xs) as Hboth.
  { intros xs. rewrite <- list_fmap_compose. apply list_fmap_ext.
    intros _ a _. simpl. by apply zip_with_assoc. }
  eexists _, _, _, _, _, _, _, _, _,
    ((fun a => zip_with np_add a (zip_with np_add t1 t2)) <$> anchors),
    ((fun a => zip_with np_add a (zip_with np_add t1 t2)) <$> pts).
  split; [exact Hrun1|]. split; [exact Hrun2|]. split; [exact Hrun12|].
  split; [rewrite <- Hboth; exact Ha2|]. split; [exact Ha12|].
  split; [rewrite <- Hboth; exact Hb2|]. split; [exact Hb12|]. done.
Qed.
End TranslationProperties.

(** ** The further properties at work on the example data *)

Section FurtherExamples.
Import SimulationFactory Artifacts GeometryFactory ConfigBuilder GeometryHandler Calls.
Existing Instance Example.PyNum_Z.
Existing Instance Example.objects.

Lemma gradient_profile_no_padding_example :
  -2 ≤ 0
  ∧ let profile :=
      generate_gradient_profile [1000; 2000] [[1; 0; 0]; [0; 1; 0]] (-2)
        STEJSKAL_TANNER [] [] in
    gp_bvals profile = [1000; 2000] ∧ gp_bvecs profile = [[1; 0; 0]; [0; 1; 0]].
Proof.
  split; [lia|].
  apply (gradient_profile_no_padding (num := Z)). lia.
Defined.

Lemma gradient_profile_padding_adds_up_example :
  0 ≤ 1 ∧ 0 ≤ 2
  ∧ let first :=
      generate_gradient_profile [1000] [[1; 0; 0]] 1 STEJSKAL_TANNER [] [] in
    let second :=
      generate_gradient_profile (gp_bvals first) (gp_bvecs first) 2
        STEJSKAL_TANNER [] [] in
    let both :=
      generate_gradient_profile [1000] [[1; 0; 0]] (2 + 1) STEJSKAL_TANNER [] [] in
    gp_bvals second = gp_bvals both ∧ gp_bvecs second = gp_bvecs both.
Proof.
  split; [lia|]. split; [lia|].
  apply (gradient_profile_padding_adds_up (num := Z)); lia.
Defined.

Lemma compartment_id_tells_type_example :
  ∃ r1 r2 : pydict Z,
    generate_fiber_stick_compartment 2 1000 100 INTRA_AXONAL = Ok r1
    ∧ generate_extra_ball_compartment 3 4000 2000 EXTRA_AXONAL_1 = Ok r2
    ∧ (dict_get "ID" r1 = dict_get "ID" r2 → INTRA_AXONAL = EXTRA_AXONAL_1)
    ∧ (dict_get "type" r1 = Some (VStr "fiber") →
       dict_get "ID" r1 ∈ [Some (VStr (num := Z) "1"); Some (VStr "2")])
    ∧ (dict_get "model" r1 = Some (VStr "ball") →
       dict_get "ID" r1 ∈ [Some (VStr (num := Z) "3"); Some (VStr "4")]).
Proof.
  eexists _, _. split; [reflexivity|]. split; [reflexivity|].
  apply (compartment_id_tells_type (num := Z)).
  - left. exists 2, 1000, 100. reflexivity.
  - right. right. exists 3, 4000, 2000. reflexivity.
Defined.

Lemma artifact_descr_tells_generator_example :
  ∃ a2 : artifact Z,
    generate_motion_model false (Str "random") [0; 0; 0] [1; 2; 3] = Ok a2
    ∧ (dict_get "descr" (generate_noise_model RICIAN 5) = dict_get "descr" a2 →
       NoiseModel = MotionModel)
    ∧ dict_get "value" (generate_noise_model RICIAN 5) = Some (Bool true)
    ∧ NoDup (generate_noise_model (num := Z) RICIAN 5).*1.
Proof.
  eexists. split; [reflexivity|].
  apply (artifact_descr_tells_generator (num := Z)).
  - apply by_noise.
  - apply (by_motion false (Str "random") [0; 0; 0] [1; 2; 3]). reflexivity.
Defined.

Lemma interleaving_does_not_matter_example :
  let cs1 := [AddBundle ([0; 0; 0], "fiber1 fiber2"); AddSphere (5, [-2; 7; 10]);
              AddBundle ([1; 1; 1], "fiber3")] in
  let cs2 := [AddSphere (5, [-2; 7; 10]); AddBundle ([0; 0; 0], "fiber1 fiber2");
              AddBundle ([1; 1; 1], "fiber3")] in
  bundles_of cs1 = bundles_of cs2
  ∧ spheres_of cs1 = spheres_of cs2
  ∧ bundles (do_calls (init [10; 10; 10] [2; 2; 2]) cs1) = bundles_of cs1
  ∧ spheres (do_calls (init [10; 10; 10] [2; 2; 2]) cs1) = spheres_of cs1
  ∧ _get_number_of_bundles (do_calls (init [10; 10; 10] [2; 2; 2]) cs1)
    = Z.of_nat (length (bundles_of cs1))
  ∧ generate_json_configuration_files (do_calls (init [10; 10; 10] [2; 2; 2]) cs1)
      "test" "out" Example.empty_fs
    = generate_json_configuration_files (do_calls (init [10; 10; 10] [2; 2; 2]) cs2)
        "test" "out" Example.empty_fs.
Proof.
  intros cs1 cs2. split; [reflexivity|]. split; [reflexivity|].
  exact (interleaving_does_not_matter [10; 10; 10] [2; 2; 2] cs1 cs2
           "test" "out" Example.empty_fs eq_refl eq_refl).
Defined.






(** A translation of two entries. *)
Lemma translate_fiber_refuses_other_lengths_example :
  well_formed Example.fiber Example.store
  ∧ Example.store !! 2%positive = Some [[0; 0; 0]]
  ∧ length [10; 20] ≠ 3%nat
  ∧ length [10; 20] ≠ 1%nat
  ∧ ∃ message,
      Translation.translate_fiber Example.fiber 2%positive [10; 20] Example.store
      = Raise (ValueError message).
Proof.
  assert (well_formed Example.fiber Example.store) as Hwf by reflexivity.
  assert (length [10; 20] ≠ 3%nat) as H3 by (simpl; lia).
  assert (length [10; 20] ≠ 1%nat) as H1 by (simpl; lia).
  split; [exact Hwf|]. split; [reflexivity|]. split; [exact H3|].
  split; [exact H1|].
  exact (translate_fiber_refuses_other_lengths (num := Z) Example.fiber 2%positive
           [10; 20] Example.store [[0; 0; 0]] Hwf eq_refl H3 H1).
Defined.

Lemma translate_fiber_broadcasts_one_entry_example :
  well_formed Example.fiber Example.store
  ∧ Example.store !! get_anchors Example.fiber = Some [[1; 2; 3]; [4; 5; 6]]
  ∧ Example.store !! 2%positive = Some [[0; 0; 0]]
  ∧ ∃ t_bbox new_fiber h',
      Translation.translate_fiber Example.fiber 2%positive [10] Example.store
        = Ok ((t_bbox, new_fiber), h')
      ∧ well_formed new_fiber h'
      ∧ h' !! get_anchors new_fiber = Some [[11; 12; 13]; [14; 15; 16]]
      ∧ h' !! t_bbox = Some [[10; 10; 10]].
Proof.
  assert (well_formed Example.fiber Example.store) as Hwf by reflexivity.
  split; [exact Hwf|]. split; [reflexivity|]. split; [reflexivity|].
  exact (translate_fiber_broadcasts_one_entry (num := Z) Example.fiber 2%positive
           10 Example.store [[1; 2; 3]; [4; 5; 6]] [[0; 0; 0]]
           Hwf eq_refl eq_refl).
Defined.

(** On the integers: by [[1, 2, 3]], then by [[10, 20, 30]]. *)
Lemma translate_fiber_twice_example :
  (∀ x y z : Z, np_add (np_add x y) z = np_add x (np_add y z))
  ∧ well_formed Example.fiber Example.store
  ∧ Example.store !! get_anchors Example.fiber = Some [[1; 2; 3]; [4; 5; 6]]
  ∧ Example.store !! 2%positive = Some [[0; 0; 0]]
  ∧ Forall vec3 [[0; 0; 0]]
  ∧ vec3 [1; 2; 3] ∧ vec3 [10; 20; 30]
  ∧ ∃ bbox1 fiber1 h1 bbox2 fiber2 h2 bbox12 fiber12 h12 anchors' pts',
      Translation.translate_fiber Example.fiber 2%positive [1; 2; 3] Example.store
        = Ok ((bbox1, fiber1), h1)
      ∧ Translation.translate_fiber fiber1 bbox1 [10; 20; 30] h1
        = Ok ((bbox2, fiber2), h2)
      ∧ Translation.translate_fiber Example.fiber 2%positive [11; 22; 33] Example.store
        = Ok ((bbox12, fiber12), h12)
      ∧ h2 !! get_anchors fiber2 = Some anchors'
      ∧ h12 !! get_anchors fiber12 = Some anchors'
      ∧ h2 !! bbox2 = Some pts'
      ∧ h12 !! bbox12 = Some pts'
      ∧ get_radius fiber2 = get_radius fiber12
      ∧ get_symmetry fiber2 = get_symmetry fiber12
      ∧ get_sampling fiber2 = get_sampling fiber12.
Proof.
  assert (∀ x y z : Z, np_add (np_add x y) z = np_add x (np_add y z)) as Hassoc.
  { intros x y z. simpl. lia. }
  assert (well_formed Example.fiber Example.store) as Hwf by reflexivity.
  assert (Forall (vec3 (num := Z)) [[0; 0; 0]]) as Hpts by (repeat constructor).
  split; [exact Hassoc|]. split; [exact Hwf|]. split; [reflexivity|].
  split; [reflexivity|]. split; [exact Hpts|]. split; [reflexivity|].
  split; [reflexivity|].
  exact (translate_fiber_twice (num := Z) Example.fiber 2%positive
           [1; 2; 3] [10; 20; 30] Example.store [[1; 2; 3]; [4; 5; 6]] [[0; 0; 0]]
           Hassoc Hwf eq_refl eq_refl Hpts eq_refl eq_refl).
Defined.
End FurtherExamples.
